(** * Atria Notes Hub: the catalog service

    A shallow embedding of the REST handlers of
    [src/supabase/functions/server/index.tsx] (the Hono application served
    by the edge function) and the properties of the content catalog they
    maintain.

    The handlers talk to two external stores: the key-value table behind
    [kv_store.tsx] (the Catalog Store) and one Supabase storage bucket (the
    Blob Store).  Both are modelled as finite maps inside a [World] that the
    handlers thread through; [console.error] output is kept in the world as
    well, so that "logged, not surfaced" can be stated. *)

From Stdlib Require Import Strings.Ascii Strings.String Strings.Byte NArith.
From stdpp Require Import base option list strings gmap pretty.

Open Scope string_scope.
Open Scope list_scope.

(** ** Data model *)

(** The [File] of a multipart form: its name and its bytes. *)
Module File.
Record t := mk { name : string; bytes : list byte }.
End File.

(** [fileRecord] as built by the upload handlers (and declared as
    [interface FileRecord] by the two React components). *)
Record FileRecord := mkFileRecord {
  id : string;
  name : string;
  path : string;
  uploadedAt : string
}.

(** A JS object used as a map from property name to value.  The pairs are
    kept in property order, which is what [Object.keys] enumerates; an
    object has every name at most once, see [wfContent]. *)
Definition Obj (V : Type) := list (string * V).

(** [interface ContentStructure]: the value stored under a
    [content_<department>_<semester>_<subject>] key. *)
Record ContentCatalog := mkContent {
  previousYearPapers : list FileRecord;
  iaPapers : list FileRecord;
  notes : Obj (list FileRecord)
}.

(** What the handlers store in the key-value table: an array of subject
    names under a [subjects_] key, a catalog under a [content_] key. *)
Inductive Value :=
  | VSubjects (subjects : list string)
  | VContent (content : ContentCatalog).

Inductive Body :=
  | BError (error : string)
  | BMessage (message : string)
  | BUploaded (message : string) (fileRecord : FileRecord)
  | BValue (value : Value).

(** [c.json(body, status)]; the status is 200 when the source gives none. *)
Inductive Response := Json (status : nat) (body : Body).

Definition status (r : Response) : nat := let 'Json s _ := r in s.

(** ** The world and the effects of a handler *)

Record World := mkWorld {
  kv : gmap string Value;          (* Catalog Store *)
  bucket : gmap string File.t;     (* Blob Store, bucket make-fd1978ca-documents *)
  console : list string            (* console.error lines, oldest first *)
}.

(** A computation either finishes with a value or throws; the world it
    leaves behind is kept in both cases, as a [try]/[catch] does not undo
    the writes made before the [throw]. *)
Inductive Outcome (A : Type) :=
  | Done (a : A)
  | Thrown (error : string).
Arguments Done {A} a.
Arguments Thrown {A} error.

Definition Eff (A : Type) : Type := World -> Outcome A * World.

Definition ret {A} (a : A) : Eff A := fun w => (Done a, w).

(** A computation that does not touch the world, run inside a handler. *)
Definition lift {A} (o : Outcome A) : Eff A := fun w => (o, w).

Definition bind {A B} (m : Eff A) (k : A -> Eff B) : Eff B :=
  fun w =>
    match m w with
    | (Done a, w') => k a w'
    | (Thrown e, w') => (Thrown e, w')
    end.

Notation "x <~ m ;; k" := (bind m (fun x => k))
  (at level 100, m at next level, right associativity, only parsing).
Notation "m ;;; k" := (bind m (fun _ => k))
  (at level 100, right associativity, only parsing).

Definition console_error (line : string) : Eff unit :=
  fun w => (Done tt, mkWorld (kv w) (bucket w) (console w ++ [line])).

(** [try { body } catch (error) { console.error(line, error); return
    c.json({ error: message }, 500) }], the frame every handler has. *)
Definition try_catch (body : Eff Response) (line message : string) : World -> Response * World :=
  fun w =>
    match body w with
    | (Done r, w') => (r, w')
    | (Thrown _, w') =>
        (Json 500 (BError message), mkWorld (kv w') (bucket w') (console w' ++ [line]))
    end.

(** Modelled from the spec: [kv_store.tsx] is imported by the server but is
    not among the sources.  The spec gives the Catalog Store as an external
    key-value store with get and set; [get] of a key never written is
    [undefined]. *)
Definition kv_get (key : string) : Eff (option Value) :=
  fun w => (Done (kv w !! key), w).

(** [set] binds the key to the value, over whatever it was bound to. *)
Definition kv_set (key : string) (value : Value) : Eff unit :=
  fun w => (Done tt, mkWorld (<[key := value]> (kv w)) (bucket w) (console w)).

(** [supabase.storage.from(bucket).upload(path, file)] and [.remove([path])].
    Whether the storage service reports an error is decided outside the
    program, so it is an input ([fails]); the calls return the [error] of
    the [{ data, error }] they resolve to, as a flag, and never throw. *)
Definition storage_upload (filePath : string) (file : File.t) (fails : bool) : Eff bool :=
  fun w =>
    if fails then (Done true, w)
    else (Done false, mkWorld (kv w) (<[filePath := file]> (bucket w)) (console w)).

Definition storage_remove (filePath : string) (fails : bool) : Eff bool :=
  fun w =>
    if fails then (Done true, w)
    else (Done false, mkWorld (kv w) (delete filePath (bucket w)) (console w)).

(** ** JS values of the requests *)

(** A field of a JSON body or of a form is absent or a string.  [truthy]
    gives the string of a field that passes [!field] as false: present and
    not empty. *)
Definition truthy (field : option string) : option string :=
  match field with
  | Some "" => None
  | other => other
  end.

(** A template literal prints the integer [Date.now()] in decimal. *)
Definition numToString (n : N) : string := pretty n.

(** ** Property access on the stored values *)

(** [o[key]]: the value of the property, [undefined] when there is none.
    The keys used below all start with [module], so that no property
    inherited from [Object.prototype] can answer instead. *)
Fixpoint prop {V} (key : string) (o : Obj V) : option V :=
  match o with
  | [] => None
  | (k, v) :: rest => if String.eqb k key then Some v else prop key rest
  end.

(** [o[key] = v]: replaces the value in place, or adds the property last. *)
Fixpoint assign {V} (key : string) (v : V) (o : Obj V) : Obj V :=
  match o with
  | [] => [(key, v)]
  | (k, v') :: rest =>
      if String.eqb k key then (k, v) :: rest else (k, v') :: assign key v rest
  end.

Definition keys {V} (o : Obj V) : list string := map fst o.

(** The literal both the read and the upload handlers fall back to. *)
Definition emptyContent : ContentCatalog :=
  mkContent [] []
    [("module1", []); ("module2", []); ("module3", []); ("module4", []); ("module5", [])].

Definition subjectsKey (department semester : string) : string :=
  "subjects_" +:+ department +:+ "_" +:+ semester.

Definition contentKey (department semester subject : string) : string :=
  "content_" +:+ department +:+ "_" +:+ semester +:+ "_" +:+ subject.

(** ** GET /content/:department/:semester/:subject *)

Definition getContent (department semester subject : string) : World -> Response * World :=
  try_catch
    (let key := contentKey department semester subject in
     stored <~ kv_get key ;;
     let content := default (VContent emptyContent) stored in
     ret (Json 200 (BValue content)))
    "Error fetching content:" "Failed to fetch content".

(** ** POST /subjects *)

(** [existingSubjects.includes(subject)]; a catalog has no [includes], and
    calling it throws. *)
Definition includes (existing : Value) (subject : string) : Outcome bool :=
  match existing with
  | VSubjects l => Done (bool_decide (subject ∈ l))
  | VContent _ => Thrown "TypeError: existingSubjects.includes is not a function"
  end.

(** [existingSubjects.push(subject)], reached only after [includes]. *)
Definition pushSubject (existing : Value) (subject : string) : Outcome Value :=
  match existing with
  | VSubjects l => Done (VSubjects (l ++ [subject]))
  | VContent _ => Thrown "TypeError: existingSubjects.push is not a function"
  end.

(** The block shared by the subject and the upload handlers:
    read the list, append the subject when it is not included, write back. *)
Definition registerSubject (department semester subject : string) : Eff unit :=
  let subjectsKey := subjectsKey department semester in
  stored <~ kv_get subjectsKey ;;
  let existingSubjects := default (VSubjects []) stored in
  present <~ lift (includes existingSubjects subject) ;;
  if negb present then
    pushed <~ lift (pushSubject existingSubjects subject) ;;
    kv_set subjectsKey pushed
  else ret tt.

Definition addSubject (department semester subject : option string) : World -> Response * World :=
  try_catch
    (match truthy department, truthy semester, truthy subject with
     | Some department, Some semester, Some subject =>
         registerSubject department semester subject ;;;
         ret (Json 200 (BMessage "Subject added successfully"))
     | _, _, _ => ret (Json 400 (BError "Missing required fields"))
     end)
    "Add subject server error:" "Internal server error during subject addition".

(** ** POST /upload and POST /admin/upload *)

(** The multipart form: [formData.get] of each field. *)
Record UploadForm := mkForm {
  form_file : option File.t;
  form_department : option string;
  form_semester : option string;
  form_subject : option string;
  form_contentType : option string;
  form_module : option string
}.

(** The clock readings of one request: the [Date.now()] of the file name,
    the later [Date.now()] of the record id, and [new Date().toISOString()]. *)
Record Clock := mkClock {
  nowName : N;
  nowId : N;
  nowIso : string
}.

(** [`${department}/${semester}/${subject}/${contentType}/${module ?
    `module${module}/` : ''}${fileName}`]; [module] is given through
    [truthy]. *)
Definition uploadPath (department semester subject contentType : string)
    (module : option string) (fileName : string) : string :=
  department +:+ "/" +:+ semester +:+ "/" +:+ subject +:+ "/" +:+ contentType +:+ "/" +:+
  match module with
  | Some module => "module" +:+ module +:+ "/"
  | None => ""
  end +:+ fileName.

(** The [if]/[else if] chain that appends the record.  Reading a property
    of [undefined] throws: this is what happens for a bucket that the
    [notes] object does not have, and for a stored value that is no
    catalog. *)
Definition pushRecord (contentType : string) (module : option string)
    (fileRecord : FileRecord) (existingContent : Value) : Outcome Value :=
  if String.eqb contentType "previousYearPaper" then
    match existingContent with
    | VContent c =>
        Done (VContent (mkContent (previousYearPapers c ++ [fileRecord]) (iaPapers c) (notes c)))
    | VSubjects _ => Thrown "TypeError: Cannot read properties of undefined (reading 'push')"
    end
  else if String.eqb contentType "iaPaper" then
    match existingContent with
    | VContent c =>
        Done (VContent (mkContent (previousYearPapers c) (iaPapers c ++ [fileRecord]) (notes c)))
    | VSubjects _ => Thrown "TypeError: Cannot read properties of undefined (reading 'push')"
    end
  else
    match (if String.eqb contentType "notes" then module else None) with
    | Some module =>
        match existingContent with
        | VContent c =>
            let key := "module" +:+ module in
            match prop key (notes c) with
            | Some bucket =>
                Done (VContent (mkContent (previousYearPapers c) (iaPapers c)
                                  (assign key (bucket ++ [fileRecord]) (notes c))))
            | None => Thrown "TypeError: Cannot read properties of undefined (reading 'push')"
            end
        | VSubjects _ => Thrown "TypeError: Cannot read properties of undefined (reading 'module')"
        end
    | None => Done existingContent
    end.

Definition upload (form : UploadForm) (clock : Clock) (uploadFails : bool)
    : World -> Response * World :=
  try_catch
    (match form_file form, truthy (form_department form), truthy (form_semester form),
           truthy (form_subject form), truthy (form_contentType form) with
     | Some file, Some department, Some semester, Some subject, Some contentType =>
         let module := truthy (form_module form) in
         let fileName := numToString (nowName clock) +:+ "_" +:+ File.name file in
         let filePath := uploadPath department semester subject contentType module fileName in
         error <~ storage_upload filePath file uploadFails ;;
         if error : bool then
           console_error "File upload error:" ;;;
           ret (Json 500 (BError "Failed to upload file"))
         else
           registerSubject department semester subject ;;;
           let contentKey := contentKey department semester subject in
           stored <~ kv_get contentKey ;;
           let existingContent := default (VContent emptyContent) stored in
           let fileRecord :=
             mkFileRecord (numToString (nowId clock)) (File.name file) filePath (nowIso clock) in
           updated <~ lift (pushRecord contentType module fileRecord existingContent) ;;
           kv_set contentKey updated ;;;
           ret (Json 200 (BUploaded "File uploaded successfully" fileRecord))
     | _, _, _, _, _ => ret (Json 400 (BError "Missing required fields"))
     end)
    "Upload server error:" "Internal server error during file upload".

Definition adminUpload (form : UploadForm) (clock : Clock) (uploadFails : bool)
    : World -> Response * World :=
  try_catch
    (match form_file form, truthy (form_department form), truthy (form_semester form),
           truthy (form_subject form), truthy (form_contentType form) with
     | Some file, Some department, Some semester, Some subject, Some contentType =>
         let module := truthy (form_module form) in
         let fileName := numToString (nowName clock) +:+ "_" +:+ File.name file in
         let filePath := uploadPath department semester subject contentType module fileName in
         error <~ storage_upload filePath file uploadFails ;;
         if error : bool then
           console_error "File upload error:" ;;;
           ret (Json 500 (BError "Failed to upload file"))
         else
           registerSubject department semester subject ;;;
           let contentKey := contentKey department semester subject in
           stored <~ kv_get contentKey ;;
           let existingContent := default (VContent emptyContent) stored in
           let fileRecord :=
             mkFileRecord (numToString (nowId clock)) (File.name file) filePath (nowIso clock) in
           updated <~ lift (pushRecord contentType module fileRecord existingContent) ;;
           kv_set contentKey updated ;;;
           ret (Json 200 (BUploaded "File uploaded successfully" fileRecord))
     | _, _, _, _, _ => ret (Json 400 (BError "Missing required fields"))
     end)
    "Upload server error:" "Internal server error during file upload".

(** ** DELETE /admin/delete/:department/:semester/:subject/:fileId *)

(** [paper.id === fileId] *)
Definition sameId (fileId : string) (record : FileRecord) : bool :=
  String.eqb (id record) fileId.

(** [list.filter((p) => p.id !== fileId)] *)
Definition without (fileId : string) (papers : list FileRecord) : list FileRecord :=
  List.filter (fun p => negb (sameId fileId p)) papers.

(** The loop over [Object.keys(content.notes)]: the first record of the
    first module that has one with the id; that module's list is filtered
    and the loop is left.  [modules] are the keys still to visit. *)
Fixpoint searchNotes (fileId : string) (modules : list string) (notes : Obj (list FileRecord))
    : Outcome (option (FileRecord * Obj (list FileRecord))) :=
  match modules with
  | [] => Done None
  | module :: rest =>
      match prop module notes with
      | None => Thrown "TypeError: content.notes[module] is not iterable"
      | Some bucket =>
          match List.find (sameId fileId) bucket with
          | Some note => Done (Some (note, assign module (without fileId bucket) notes))
          | None => searchNotes fileId rest notes
          end
      end
  end.

(** The three searches of the handler, in their order; the result is
    [fileToDelete] with the catalog as mutated, or nothing when [found]
    stays false. *)
Definition findAndRemove (fileId : string) (content : Value)
    : Outcome (option (FileRecord * ContentCatalog)) :=
  match content with
  | VSubjects _ => Thrown "TypeError: content.previousYearPapers is not iterable"
  | VContent c =>
      match List.find (sameId fileId) (previousYearPapers c) with
      | Some paper =>
          Done (Some (paper,
                      mkContent (without fileId (previousYearPapers c)) (iaPapers c) (notes c)))
      | None =>
          match List.find (sameId fileId) (iaPapers c) with
          | Some paper =>
              Done (Some (paper,
                          mkContent (previousYearPapers c) (without fileId (iaPapers c)) (notes c)))
          | None =>
              match searchNotes fileId (keys (notes c)) (notes c) with
              | Done (Some (note, notes')) =>
                  Done (Some (note, mkContent (previousYearPapers c) (iaPapers c) notes'))
              | Done None => Done None
              | Thrown e => Thrown e
              end
          end
      end
  end.

Definition adminDelete (department semester subject fileId : string) (removeFails : bool)
    : World -> Response * World :=
  try_catch
    (let contentKey := contentKey department semester subject in
     stored <~ kv_get contentKey ;;
     match stored with
     | None => ret (Json 404 (BError "Content not found"))
     | Some content =>
         found <~ lift (findAndRemove fileId content) ;;
         match found with
         | None => ret (Json 404 (BError "File not found"))
         | Some (fileToDelete, content) =>
             error <~ storage_remove (path fileToDelete) removeFails ;;
             (if error : bool then console_error "Error deleting file from storage:" else ret tt) ;;;
             kv_set contentKey (VContent content) ;;;
             ret (Json 200 (BMessage "File deleted successfully"))
         end
     end)
    "Delete file server error:" "Internal server error during file deletion".

(** ** GET /content/subjects/:department/:semester *)

Definition getSubjects (department semester : string) : World -> Response * World :=
  try_catch
    (let key := subjectsKey department semester in
     stored <~ kv_get key ;;
     let subjects := default (VSubjects []) stored in
     ret (Json 200 (BValue subjects)))
    "Error fetching subjects:" "Failed to fetch subjects".

(** ** The protected route middleware *)

(** [s.split(' ')]: the pieces between the spaces; a string without space
    is its one piece, and two spaces in a row have an empty piece between
    them. *)
Fixpoint splitSpace (s : string) : list string :=
  match s with
  | EmptyString => [EmptyString]
  | String c rest =>
      if Ascii.eqb c " "%char then EmptyString :: splitSpace rest
      else
        match splitSpace rest with
        | piece :: pieces => String c piece :: pieces
        | [] => [String c EmptyString]
        end
  end.

(** [c.req.header('Authorization')?.split(' ')[1]] *)
Definition accessToken (authorization : option string) : option string :=
  match authorization with
  | Some header => splitSpace header !! 1
  | None => None
  end.

(** [requireAuth(c, next)].  [getUser] is the identity service: the user
    that [supabase.auth.getUser(accessToken)] resolves to, nothing when it
    reports an error or no user.  [next] is the handler behind the
    middleware. *)
Definition requireAuth (authorization : option string) (getUser : string -> option string)
    (next : World -> Response * World) : World -> Response * World :=
  fun w =>
    match truthy (accessToken authorization) with
    | None => (Json 401 (BError "No authorization token provided"), w)
    | Some accessToken =>
        match getUser accessToken with
        | None =>
            (Json 401 (BError "Unauthorized access attempt"),
             mkWorld (kv w) (bucket w)
               (console w ++ ["Authorization error while verifying admin access:"]))
        | Some user => next w
        end
    end.

(** ** DELETE /delete/:fileId *)

(** Modelled from the spec: the prefix scan of the key-value store
    ([kv.getByPrefix], in [kv_store.tsx], which is not among the sources).
    The handler reads [item.key] and [item.value] of what it returns, so
    the scan gives the bindings whose key starts with the prefix. *)
Definition kv_getByPrefix (prefix : string) : Eff (list (string * Value)) :=
  fun w =>
    (Done (List.filter (fun item => String.prefix prefix (fst item)) (map_to_list (kv w))), w).

(** The notes loop of this route: [content.notes[module] || []] is
    iterated, so that a missing list is passed over. *)
Fixpoint searchNotesCompat (fileId : string) (modules : list string)
    (notes : Obj (list FileRecord)) : option (FileRecord * Obj (list FileRecord)) :=
  match modules with
  | [] => None
  | module :: rest =>
      let bucket := default [] (prop module notes) in
      match List.find (sameId fileId) bucket with
      | Some note => Some (note, assign module (without fileId bucket) notes)
      | None => searchNotesCompat fileId rest notes
      end
  end.

(** The three searches on one scanned value, with the guards of this
    route: [content.previousYearPapers || []], [content.iaPapers || []]
    and [content.notes &&].  A value without these properties has nothing
    to find.  The result is [fileToDelete] and [updatedContent]. *)
Definition compatFind (fileId : string) (content : Value)
    : option (FileRecord * ContentCatalog) :=
  match content with
  | VSubjects _ => None
  | VContent c =>
      match List.find (sameId fileId) (previousYearPapers c) with
      | Some paper =>
          Some (paper, mkContent (without fileId (previousYearPapers c)) (iaPapers c) (notes c))
      | None =>
          match List.find (sameId fileId) (iaPapers c) with
          | Some paper =>
              Some (paper,
                    mkContent (previousYearPapers c) (without fileId (iaPapers c)) (notes c))
          | None =>
              match searchNotesCompat fileId (keys (notes c)) (notes c) with
              | Some (note, notes') =>
                  Some (note, mkContent (previousYearPapers c) (iaPapers c) notes')
              | None => None
              end
          end
      end
  end.

(** [for (const item of allKeys)]: the first scanned catalog with the id
    is rewritten and the handler returns; 404 when the scan is over. *)
Fixpoint compatDeleteScan (fileId : string) (removeFails : bool)
    (items : list (string * Value)) : Eff Response :=
  match items with
  | [] => ret (Json 404 (BError "File not found"))
  | (key, content) :: rest =>
      if String.prefix "content_" key then
        match compatFind fileId content with
        | Some (fileToDelete, updatedContent) =>
            error <~ storage_remove (path fileToDelete) removeFails ;;
            (if error : bool then console_error "Error deleting file from storage:"
             else ret tt) ;;;
            kv_set key (VContent updatedContent) ;;;
            ret (Json 200 (BMessage "File deleted successfully"))
        | None => compatDeleteScan fileId removeFails rest
        end
      else compatDeleteScan fileId removeFails rest
  end.

Definition compatDelete (fileId : string) (removeFails : bool) : World -> Response * World :=
  try_catch
    (allKeys <~ kv_getByPrefix "content_" ;;
     compatDeleteScan fileId removeFails allKeys)
    "Delete file server error:" "Internal server error during file deletion".

(** ** The upload panel of the admin dashboard *)

(** The selections of [AdminDashboard] that the upload reads; each starts
    as the empty string. *)
Record Dashboard := mkDashboard {
  selectedDepartment : string;
  selectedSemester : string;
  selectedSubject : string;
  selectedContentType : string;
  selectedModule : string
}.

(** What [handleFileUpload] does with the [change] event of the file
    input: nothing without a file, a message when a selection is missing,
    or the request with the form it has built. *)
Inductive UploadAction :=
  | NoAction
  | ShowMessage (message : string)
  | SendUpload (form : UploadForm).

Definition falsy (s : string) : bool := String.eqb s "".

Definition handleFileUpload (st : Dashboard) (file : option File.t) : UploadAction :=
  match file with
  | None => NoAction
  | Some file =>
      if falsy (selectedDepartment st) || falsy (selectedSemester st)
         || falsy (selectedSubject st) || falsy (selectedContentType st)
      then ShowMessage
             "Please select department, semester, subject, and content type before uploading."
      else if String.eqb (selectedContentType st) "notes" && falsy (selectedModule st)
      then ShowMessage "Please select a module for notes upload."
      else
        SendUpload
          (mkForm (Some file) (Some (selectedDepartment st)) (Some (selectedSemester st))
             (Some (selectedSubject st)) (Some (selectedContentType st))
             (if String.eqb (selectedContentType st) "notes" then Some (selectedModule st)
              else None))
  end.

(** ** Notions used by the statements *)

(** The lists of a catalog in the order the delete handler visits them. *)
Definition buckets (c : ContentCatalog) : list (list FileRecord) :=
  previousYearPapers c :: iaPapers c :: map snd (notes c).

(** Every record of a catalog, in that order. *)
Definition records (c : ContentCatalog) : list FileRecord := concat (buckets c).

(** A JS object has each property once. *)
Definition wfContent (c : ContentCatalog) : Prop := NoDup (keys (notes c)).

(** The SubjectList of (department, semester): the stored array, the empty
    one when the key was never written; nothing when the key holds a value
    that is no array. *)
Definition subjectsAt (w : World) (department semester : string) : option (list string) :=
  match kv w !! subjectsKey department semester with
  | None => Some []
  | Some (VSubjects l) => Some l
  | Some (VContent _) => None
  end.

(** The world after the subject registration, for a SubjectList [l]: the
    subject is appended when [l] does not include it. *)
Definition registered (w : World) (department semester subject : string) (l : list string)
    : World :=
  if bool_decide (subject ∈ l) then w
  else mkWorld (<[subjectsKey department semester := VSubjects (l ++ [subject])]> (kv w))
               (bucket w) (console w).

(** No record of the list has the id. *)
Definition absent (fileId : string) (papers : list FileRecord) : Prop :=
  Forall (fun r => id r ≠ fileId) papers.

(** What [findAndRemove] finds, on the lists of the catalog in the order
    [buckets] gives them: [bs1] are the lists passed without a match, [b]
    is the first list with one and [r] its first record with the id; [b]
    is filtered and the lists [bs2] behind it are not looked at. *)
Definition removedFrom (fileId : string) (c : ContentCatalog) (r : FileRecord)
    (c' : ContentCatalog) (bs1 : list (list FileRecord)) (b : list FileRecord)
    (bs2 : list (list FileRecord)) : Prop :=
  buckets c = bs1 ++ b :: bs2
  /\ Forall (absent fileId) bs1
  /\ List.find (sameId fileId) b = Some r
  /\ buckets c' = bs1 ++ without fileId b :: bs2
  /\ keys (notes c') = keys (notes c).

(** The storage path as the specification words it, to compare with
    [uploadPath]: department/semester/subject/contentType/, the segment
    module{n}/ exactly when the content type is notes with module n, then
    timestamp_filename. *)
Definition specPath (department semester subject contentType : string)
    (module : option string) (timestamp fileName : string) : string :=
  department +:+ "/" +:+ semester +:+ "/" +:+ subject +:+ "/" +:+ contentType +:+ "/" +:+
  (if String.eqb contentType "notes" then
     match module with
     | Some n => "module" +:+ n +:+ "/"
     | None => ""
     end
   else "") +:+ timestamp +:+ "_" +:+ fileName.

(** ** More notions used by the statements *)

(** The string has a space in it. *)
Fixpoint hasSpace (s : string) : bool :=
  match s with
  | EmptyString => false
  | String c rest => Ascii.eqb c " "%char || hasSpace rest
  end.

(** The content type, with the module for notes, names a list of the
    catalog: one of the two paper lists, or the notes of a module that the
    notes object has. *)
Definition namesList (c : ContentCatalog) (contentType : string) (module : option string)
    : Prop :=
  contentType = "previousYearPaper"
  \/ contentType = "iaPaper"
  \/ (contentType = "notes"
      /\ exists m, truthy module = Some m /\ is_Some (prop ("module" +:+ m) (notes c))).

(** Every subject list of the store is free of duplicates. *)
Definition subjectListsNoDup (w : World) : Prop :=
  forall k l, kv w !! k = Some (VSubjects l) -> NoDup l.

(** Sample data for the examples. *)
Definition emptyWorld : World := mkWorld ∅ ∅ [].

Definition examPdf : File.t := File.mk "exam.pdf" [x25; x50; x44; x46].

Definition sampleClock : Clock := mkClock 1000 1001 "2024-01-01T00:00:00.000Z".

Definition sampleForm (file : File.t) (contentType : string) (module : option string)
    : UploadForm :=
  mkForm (Some file) (Some "CSE") (Some "3") (Some "Data Structures") (Some contentType) module.

(** One previous-year paper uploaded into the empty world. *)
Definition oneUpload : World :=
  snd (adminUpload (sampleForm examPdf "previousYearPaper" None) sampleClock false emptyWorld).

Definition oneCatalog : ContentCatalog :=
  mkContent
    [mkFileRecord "1001" "exam.pdf" "CSE/3/Data Structures/previousYearPaper/1000_exam.pdf"
       "2024-01-01T00:00:00.000Z"]
    [] (notes emptyContent).

(** A second paper uploaded by a request that reads the same clock. *)
Definition twoUploads : World :=
  snd (adminUpload (sampleForm (File.mk "exam2.pdf" [x25; x50]) "previousYearPaper" None)
         sampleClock false oneUpload).

(** An IA paper and a note for module 2, uploaded by requests that read
    the same clock. *)
Definition mixedUploads : World :=
  snd (adminUpload (sampleForm (File.mk "notes.pdf" [x25; x50]) "notes" (Some "2")) sampleClock false
         (snd (adminUpload (sampleForm examPdf "iaPaper" None) sampleClock false emptyWorld))).

Definition mixedCatalog : ContentCatalog :=
  mkContent []
    [mkFileRecord "1001" "exam.pdf" "CSE/3/Data Structures/iaPaper/1000_exam.pdf"
       "2024-01-01T00:00:00.000Z"]
    [("module1", []);
     ("module2", [mkFileRecord "1001" "notes.pdf"
                    "CSE/3/Data Structures/notes/module2/1000_notes.pdf"
                    "2024-01-01T00:00:00.000Z"]);
     ("module3", []); ("module4", []); ("module5", [])].

(** The clock of a request that reads [t] for the file name and [t + 1]
    for the record id. *)
Definition clockAt (t : N) : Clock := mkClock t (t + 1) "2024-01-01T00:00:00.000Z".

(** Three previous-year papers with the ids 1001, 2001 and 3001, and a
    note for module 2 that has the id 2001 as well. *)
Definition busyUploads : World :=
  snd (adminUpload (sampleForm (File.mk "d.pdf" [x25]) "notes" (Some "2")) (clockAt 2000) false
    (snd (adminUpload (sampleForm (File.mk "c.pdf" [x25]) "previousYearPaper" None)
            (clockAt 3000) false
       (snd (adminUpload (sampleForm (File.mk "b.pdf" [x25]) "previousYearPaper" None)
               (clockAt 2000) false
          (snd (adminUpload (sampleForm (File.mk "a.pdf" [x25]) "previousYearPaper" None)
                  (clockAt 1000) false emptyWorld))))))).

Definition busyRecord (t : string) (fileName contentPath : string) : FileRecord :=
  mkFileRecord t fileName ("CSE/3/Data Structures/" +:+ contentPath)
    "2024-01-01T00:00:00.000Z".

Definition busyCatalog : ContentCatalog :=
  mkContent
    [busyRecord "1001" "a.pdf" "previousYearPaper/1000_a.pdf";
     busyRecord "2001" "b.pdf" "previousYearPaper/2000_b.pdf";
     busyRecord "3001" "c.pdf" "previousYearPaper/3000_c.pdf"]
    []
    [("module1", []);
     ("module2", [busyRecord "2001" "d.pdf" "notes/module2/2000_d.pdf"]);
     ("module3", []); ("module4", []); ("module5", [])].

Example numToString_1000 : numToString 1000 = "1000".
Proof. vm_compute. reflexivity. Qed.

(** * Properties *)

Arguments registerSubject : simpl never.
Arguments pushRecord : simpl never.

(** ** Keys and request fields *)

Lemma truthy_Some (s : string) : s ≠ "" -> truthy (Some s) = Some s.
Proof. intros Hs. destruct s; [congruence | reflexivity]. Qed.

Lemma truthy_inv (field : option string) (s : string) :
  truthy field = Some s -> field = Some s /\ s ≠ "".
Proof.
  destruct field as [[|a t]|]; simpl; intros H; inversion H; subst; split; congruence.
Qed.

(** The two families of keys never meet: one starts with [s], the other
    with [c]. *)
Lemma subjectsKey_contentKey_ne (d s d' s' sub : string) :
  subjectsKey d s ≠ contentKey d' s' sub.
Proof. unfold subjectsKey, contentKey. intros H. cbn in H. discriminate H. Qed.

(** ** The subject registration shared by the handlers *)

Lemma registerSubject_run (d s sub : string) (w : World) (l : list string) :
  subjectsAt w d s = Some l ->
  registerSubject d s sub w = (Done tt, registered w d s sub l).
Proof.
  unfold subjectsAt, registerSubject, registered, bind, kv_get, lift, kv_set, ret.
  destruct (kv w !! subjectsKey d s) as [[l'|c]|]; intros [= <-]; simpl;
    try destruct (bool_decide (sub ∈ l')); reflexivity.
Qed.

Lemma subjectsAt_registered (d s sub : string) (w : World) (l : list string) :
  subjectsAt w d s = Some l ->
  subjectsAt (registered w d s sub l) d s = Some (if bool_decide (sub ∈ l) then l else l ++ [sub]).
Proof.
  intros H. unfold registered. destruct (bool_decide (sub ∈ l)); [exact H|].
  unfold subjectsAt. simpl. by rewrite lookup_insert_eq.
Qed.

Lemma registered_again (d s sub : string) (w : World) (l : list string) :
  registered (registered w d s sub l) d s sub (if bool_decide (sub ∈ l) then l else l ++ [sub])
  = registered w d s sub l.
Proof.
  unfold registered at 1. destruct (bool_decide (sub ∈ l)) eqn:E.
  - by rewrite E.
  - rewrite bool_decide_eq_true_2; [reflexivity | set_solver].
Qed.

(** ** The read handler *)

(** C2: for a (department, semester, subject) whose catalog key was never
    written, the read handler answers 200 with the zero-value catalog: no
    previous-year papers, no IA papers, and a notes object whose keys are
    exactly module1 .. module5, each bound to the empty list.  It does not
    fail, and the world (the Catalog Store in particular) is as it was. *)
Theorem getContent_never_written (department semester subject : string) (w : World) :
  kv w !! contentKey department semester subject = None ->
  getContent department semester subject w = (Json 200 (BValue (VContent emptyContent)), w)
  /\ previousYearPapers emptyContent = []
  /\ iaPapers emptyContent = []
  /\ keys (notes emptyContent) = ["module1"; "module2"; "module3"; "module4"; "module5"]
  /\ (forall k b, prop k (notes emptyContent) = Some b -> b = []).
Proof.
  intros H. split; [|repeat split].
  - unfold getContent, try_catch, bind, kv_get, ret. by rewrite H.
  - intros k b Hb. unfold emptyContent in Hb. cbn [prop notes] in Hb.
    repeat (destruct (String.eqb _ k) in Hb; [by inversion Hb|]). discriminate Hb.
Qed.

Lemma getContent_never_written_witness :
  getContent "CSE" "3" "Data Structures" emptyWorld
  = (Json 200 (BValue (VContent emptyContent)), emptyWorld).
Proof.
  apply (getContent_never_written "CSE" "3" "Data Structures" emptyWorld).
  reflexivity.
Defined.

(** ** The subject handler *)

(** C5: adding a subject is idempotent.  With the three fields non-empty,
    both of two identical calls answer 200, the second leaves the world as
    the first left it, and the SubjectList after them is the one before
    with the subject appended when it was not in it; from an empty
    SubjectList it is the one-element list of the subject. *)
Theorem addSubject_idempotent (department semester subject : string) (w : World)
    (l : list string) :
  department ≠ "" -> semester ≠ "" -> subject ≠ "" ->
  subjectsAt w department semester = Some l ->
  let ok := Json 200 (BMessage "Subject added successfully") in
  let call := addSubject (Some department) (Some semester) (Some subject) in
  let w1 := snd (call w) in
  let w2 := snd (call w1) in
  fst (call w) = ok /\ fst (call w1) = ok /\ w2 = w1
  /\ subjectsAt w2 department semester
     = Some (if bool_decide (subject ∈ l) then l else l ++ [subject])
  /\ (l = [] -> kv w2 !! subjectsKey department semester = Some (VSubjects [subject])).
Proof.
  intros Hd Hs Hsub Hl ok call w1 w2.
  assert (Hcall : forall w' l', subjectsAt w' department semester = Some l' ->
            call w' = (ok, registered w' department semester subject l')).
  { intros w' l' H'. unfold call, addSubject, try_catch, bind.
    rewrite !truthy_Some by assumption.
    by rewrite (registerSubject_run _ _ _ _ _ H'). }
  pose proof (subjectsAt_registered _ _ subject _ _ Hl) as Hl1.
  assert (E1 : w1 = registered w department semester subject l).
  { unfold w1. by rewrite (Hcall _ _ Hl). }
  assert (E2 : w2 = w1).
  { unfold w2. rewrite E1, (Hcall _ _ Hl1). simpl. apply registered_again. }
  repeat split.
  - by rewrite (Hcall _ _ Hl).
  - rewrite E1. by rewrite (Hcall _ _ Hl1).
  - exact E2.
  - by rewrite E2, E1.
  - intros ->. rewrite E2, E1. unfold registered. simpl. by rewrite lookup_insert_eq.
Qed.

Lemma addSubject_idempotent_witness :
  let call := addSubject (Some "CSE") (Some "3") (Some "Data Structures") in
  kv (snd (call (snd (call emptyWorld)))) !! subjectsKey "CSE" "3"
  = Some (VSubjects ["Data Structures"]).
Proof.
  refine (proj2 (proj2 (proj2 (proj2
    (addSubject_idempotent "CSE" "3" "Data Structures" emptyWorld [] _ _ _ _)))) _);
    (discriminate || reflexivity).
Defined.

(** ** Searching a list for an id *)

Lemma sameId_true (fileId : string) (r : FileRecord) : sameId fileId r = true <-> id r = fileId.
Proof. unfold sameId. apply String.eqb_eq. Qed.

Lemma sameId_false (fileId : string) (r : FileRecord) : sameId fileId r = false <-> id r ≠ fileId.
Proof. unfold sameId. apply String.eqb_neq. Qed.

Lemma find_None_absent (fileId : string) (papers : list FileRecord) :
  List.find (sameId fileId) papers = None <-> absent fileId papers.
Proof.
  unfold absent. induction papers as [|p papers IH]; simpl.
  - split; [constructor | reflexivity].
  - destruct (sameId fileId p) eqn:E.
    + split; [discriminate|]. intros H. inversion H; subst.
      apply sameId_true in E. contradiction.
    + rewrite IH. apply sameId_false in E. split.
      * by constructor.
      * intros H. by inversion H.
Qed.

(** The record found is in the list, has the id, and is the first such. *)
Lemma find_Some_first (fileId : string) (papers : list FileRecord) (r : FileRecord) :
  List.find (sameId fileId) papers = Some r ->
  exists pre post, papers = pre ++ r :: post /\ absent fileId pre /\ id r = fileId.
Proof.
  induction papers as [|p papers IH]; simpl; [discriminate|].
  destruct (sameId fileId p) eqn:E.
  - intros [= ->]. exists [], papers. repeat split; [constructor | by apply sameId_true].
  - intros H. destruct (IH H) as (pre & post & -> & Hpre & Hid).
    exists (p :: pre), post. repeat split; [|done].
    constructor; [by apply sameId_false | done].
Qed.

Lemma find_app_first (fileId : string) (l1 l2 : list FileRecord) :
  List.find (sameId fileId) (l1 ++ l2)
  = match List.find (sameId fileId) l1 with
    | Some r => Some r
    | None => List.find (sameId fileId) l2
    end.
Proof.
  induction l1 as [|p l1 IH]; simpl; [reflexivity|]. by destruct (sameId fileId p).
Qed.

Lemma without_absent (fileId : string) (papers : list FileRecord) :
  absent fileId papers -> without fileId papers = papers.
Proof.
  unfold absent, without. induction 1 as [|p papers Hp _ IH]; simpl; [reflexivity|].
  apply sameId_false in Hp. rewrite Hp. simpl. by rewrite IH.
Qed.

Lemma without_app (fileId : string) (l1 l2 : list FileRecord) :
  without fileId (l1 ++ l2) = without fileId l1 ++ without fileId l2.
Proof. unfold without. apply List.filter_app. Qed.

(** When the id occurs once in the list, filtering takes out that one
    record and keeps the others where they were. *)
Lemma without_single (fileId : string) (papers : list FileRecord) (r : FileRecord) :
  List.find (sameId fileId) papers = Some r ->
  length (List.filter (sameId fileId) papers) = 1 ->
  exists pre post, papers = pre ++ r :: post /\ without fileId papers = pre ++ post.
Proof.
  intros Hfind Hone.
  destruct (find_Some_first _ _ _ Hfind) as (pre & post & -> & Hpre & Hid).
  exists pre, post. split; [reflexivity|].
  assert (Hpost : absent fileId post).
  { rewrite List.filter_app in Hone. simpl in Hone.
    apply sameId_true in Hid. rewrite Hid in Hone.
    rewrite length_app in Hone. simpl in Hone.
    assert (Hnil : List.filter (sameId fileId) post = []).
    { destruct (List.filter (sameId fileId) post); [reflexivity | simpl in Hone; lia]. }
    unfold absent. apply Forall_forall. intros x Hx. apply sameId_false.
    destruct (sameId fileId x) eqn:E; [|reflexivity].
    assert (Hin : In x (List.filter (sameId fileId) post)).
    { apply List.filter_In. split; [by apply list_elem_of_In | done]. }
    rewrite Hnil in Hin. destruct Hin. }
  rewrite without_app. simpl. unfold without at 2. simpl.
  apply sameId_true in Hid. rewrite Hid. simpl.
  fold (without fileId post). by rewrite !without_absent.
Qed.

(** ** Property access *)

Lemma prop_fresh {V} (key : string) (pre rest : Obj V) (v : V) :
  key ∉ keys pre -> prop key (pre ++ (key, v) :: rest) = Some v.
Proof.
  induction pre as [|[k v'] pre IH]; simpl; intros Hk.
  - by rewrite String.eqb_refl.
  - apply not_elem_of_cons in Hk as [Hne Hk].
    destruct (String.eqb k key) eqn:E; [apply String.eqb_eq in E; congruence|]. by apply IH.
Qed.

Lemma assign_fresh {V} (key : string) (pre rest : Obj V) (v v' : V) :
  key ∉ keys pre -> assign key v' (pre ++ (key, v) :: rest) = pre ++ (key, v') :: rest.
Proof.
  induction pre as [|[k v0] pre IH]; simpl; intros Hk.
  - by rewrite String.eqb_refl.
  - apply not_elem_of_cons in Hk as [Hne Hk].
    destruct (String.eqb k key) eqn:E; [apply String.eqb_eq in E; congruence|].
    by rewrite IH.
Qed.

Lemma prop_elem {V} (key : string) (o : Obj V) (v : V) :
  prop key o = Some v -> v ∈ map snd o.
Proof.
  induction o as [|[k v'] o IH]; simpl; [discriminate|].
  destruct (String.eqb k key).
  - intros [= ->]. left.
  - intros H. right. by apply IH.
Qed.

Lemma prop_None {V} (key : string) (o : Obj V) : prop key o = None -> key ∉ keys o.
Proof.
  induction o as [|[k v'] o IH]; simpl; [intros _; apply not_elem_of_nil|].
  destruct (String.eqb k key) eqn:E; [discriminate|].
  intros H. apply not_elem_of_cons. split; [|by apply IH].
  apply String.eqb_neq in E. congruence.
Qed.

(** ** The search of the delete handler *)

(** Nothing is found where no list has the id; this needs no assumption
    on the notes object. *)
Lemma searchNotes_absent (fileId : string) (notes : Obj (list FileRecord)) (modules : list string) :
  Forall (absent fileId) (map snd notes) ->
  (forall k, k ∈ modules -> k ∈ keys notes) ->
  searchNotes fileId modules notes = Done None.
Proof.
  intros Habs. induction modules as [|k modules IH]; simpl; intros Hsub; [reflexivity|].
  destruct (prop k notes) as [b|] eqn:E.
  - assert (Hb : absent fileId b).
    { rewrite Forall_forall in Habs. apply Habs. eapply prop_elem, E. }
    apply find_None_absent in Hb. rewrite Hb. apply IH. intros k' Hk'. apply Hsub. by right.
  - apply prop_None in E. destruct E. apply Hsub. left.
Qed.

(** The modules are visited in key order: with [pre] behind and [todo]
    ahead, either no list ahead has the id, or the first that has one is
    filtered and everything else stays. *)
Lemma searchNotes_split (fileId : string) (todo pre : Obj (list FileRecord)) :
  NoDup (keys (pre ++ todo)) ->
  (searchNotes fileId (keys todo) (pre ++ todo) = Done None
   /\ Forall (absent fileId) (map snd todo))
  \/ (exists t1 k b t2 r,
        todo = t1 ++ (k, b) :: t2
        /\ Forall (absent fileId) (map snd t1)
        /\ List.find (sameId fileId) b = Some r
        /\ searchNotes fileId (keys todo) (pre ++ todo)
           = Done (Some (r, pre ++ t1 ++ (k, without fileId b) :: t2))).
Proof.
  revert pre. induction todo as [|[k b] todo IH]; intros pre Hnd.
  - left. split; [reflexivity | constructor].
  - assert (Hk : k ∉ keys pre).
    { unfold keys in *. rewrite map_app in Hnd. simpl in Hnd.
      apply NoDup_app in Hnd as (_ & Hdisj & _). intros Hin. apply (Hdisj k Hin). left. }
    simpl. rewrite (prop_fresh k pre todo b Hk).
    destruct (List.find (sameId fileId) b) as [r|] eqn:E.
    + right. exists [], k, b, todo, r. split_and!; [done | constructor | done |].
      by rewrite assign_fresh.
    + specialize (IH (pre ++ [(k, b)])). rewrite <- app_assoc in IH. simpl in IH.
      destruct (IH Hnd) as [[Hnone Hall] | (t1 & k' & b' & t2 & r & -> & Hall & Hfind & Hres)].
      * left. split; [exact Hnone|]. constructor; [by apply find_None_absent | exact Hall].
      * right. exists ((k, b) :: t1), k', b', t2, r. split_and!.
        -- reflexivity.
        -- simpl. constructor; [by apply find_None_absent | exact Hall].
        -- exact Hfind.
        -- rewrite Hres. by rewrite <- app_assoc.
Qed.

Lemma findAndRemove_spec (fileId : string) (c : ContentCatalog) :
  wfContent c ->
  (findAndRemove fileId (VContent c) = Done None /\ Forall (absent fileId) (buckets c))
  \/ (exists r c' bs1 b bs2,
        findAndRemove fileId (VContent c) = Done (Some (r, c'))
        /\ removedFrom fileId c r c' bs1 b bs2).
Proof.
  intros Hwf. unfold findAndRemove, removedFrom, buckets.
  destruct (List.find (sameId fileId) (previousYearPapers c)) as [r|] eqn:E1.
  { right. eexists r, _, [], _, _. split_and!; [done | done | constructor | exact E1 | done | done]. }
  destruct (List.find (sameId fileId) (iaPapers c)) as [r|] eqn:E2.
  { right. eexists r, _, [_], _, _. split_and!; [done | done | | exact E2 | done | done].
    repeat constructor. by apply find_None_absent. }
  apply find_None_absent in E1, E2.
  destruct (searchNotes_split fileId (notes c) [] Hwf)
    as [[Hnone Hall] | (t1 & k & b & t2 & r & Hnotes & Hall & Hfind & Hres)]; simpl in *.
  - left. rewrite Hnone. split; [reflexivity|]. by repeat constructor.
  - right. rewrite Hres.
    exists r, (mkContent (previousYearPapers c) (iaPapers c) (t1 ++ (k, without fileId b) :: t2)),
      (previousYearPapers c :: iaPapers c :: map snd t1), b, (map snd t2).
    split; [reflexivity|]. simpl. rewrite Hnotes. unfold keys. rewrite !map_app. simpl.
    split_and!; [done | by repeat constructor | exact Hfind | done | done].
Qed.

(** The first list with a match holds the first match of the traversal. *)
Lemma find_concat_first (fileId : string) (bs1 : list (list FileRecord)) (b : list FileRecord)
    (bs2 : list (list FileRecord)) :
  Forall (absent fileId) bs1 ->
  List.find (sameId fileId) (concat (bs1 ++ b :: bs2))
  = match List.find (sameId fileId) b with
    | Some r => Some r
    | None => List.find (sameId fileId) (concat bs2)
    end.
Proof.
  induction 1 as [|b1 bs1 Hb1 _ IH]; simpl.
  - apply find_app_first.
  - rewrite find_app_first. apply find_None_absent in Hb1. by rewrite Hb1.
Qed.

Lemma absent_concat (fileId : string) (bs : list (list FileRecord)) :
  Forall (absent fileId) bs <-> absent fileId (concat bs).
Proof.
  unfold absent. induction bs as [|b bs IH]; simpl.
  - split; constructor.
  - rewrite Forall_app, <- IH. split.
    + intros H. by inversion H.
    + intros [H1 H2]. by constructor.
Qed.

(** ** Running the delete handler *)

Lemma adminDelete_found (d s sub fileId : string) (fails : bool) (w : World)
    (content : Value) (r : FileRecord) (c' : ContentCatalog) :
  kv w !! contentKey d s sub = Some content ->
  findAndRemove fileId content = Done (Some (r, c')) ->
  adminDelete d s sub fileId fails w
  = (Json 200 (BMessage "File deleted successfully"),
     mkWorld (<[contentKey d s sub := VContent c']> (kv w))
             (if fails then bucket w else delete (path r) (bucket w))
             (if fails then console w ++ ["Error deleting file from storage:"] else console w)).
Proof.
  intros Hkv Hfind.
  unfold adminDelete, try_catch, bind, kv_get, lift, storage_remove, console_error, kv_set, ret.
  rewrite Hkv, Hfind. by destruct fails.
Qed.

Lemma adminDelete_not_found (d s sub fileId : string) (fails : bool) (w : World)
    (content : Value) :
  kv w !! contentKey d s sub = Some content ->
  findAndRemove fileId content = Done None ->
  adminDelete d s sub fileId fails w = (Json 404 (BError "File not found"), w).
Proof.
  intros Hkv Hfind. unfold adminDelete, try_catch, bind, kv_get, lift, ret.
  by rewrite Hkv, Hfind.
Qed.

(** C3: deleting an id that no list of the catalog holds answers 404 and
    changes nothing.  The catalog key is either unbound (404, Content not
    found) or bound to a catalog none of whose lists (previous-year
    papers, IA papers, any notes module) has a record with the id (404,
    File not found); the world after the call, hence both the Catalog
    Store and the Blob Store, is the world before it. *)
Theorem adminDelete_unknown_id (department semester subject fileId : string)
    (removeFails : bool) (w : World) :
  kv w !! contentKey department semester subject = None
  \/ (exists c, kv w !! contentKey department semester subject = Some (VContent c)
                /\ absent fileId (records c)) ->
  exists message,
    adminDelete department semester subject fileId removeFails w
    = (Json 404 (BError message), w).
Proof.
  intros [Hnone | (c & Hc & Habs)].
  - exists "Content not found".
    unfold adminDelete, try_catch, bind, kv_get, ret. by rewrite Hnone.
  - exists "File not found". apply (adminDelete_not_found _ _ _ _ _ _ _ Hc).
    apply absent_concat in Habs. unfold buckets in Habs.
    inversion Habs as [|? ? H1 Habs']; subst. inversion Habs' as [|? ? H2 H3]; subst.
    apply find_None_absent in H1, H2.
    unfold findAndRemove. rewrite H1, H2.
    by rewrite (searchNotes_absent fileId (notes c) (keys (notes c)) H3).
Qed.

Lemma adminDelete_unknown_id_witness :
  exists message,
    adminDelete "CSE" "3" "Data Structures" "9999" false oneUpload
    = (Json 404 (BError message), oneUpload).
Proof.
  apply (adminDelete_unknown_id "CSE" "3" "Data Structures" "9999" false oneUpload).
  right. eexists. split; [vm_compute; reflexivity|].
  repeat constructor. discriminate.
Defined.

(** ** What the delete takes out *)

(** The filter of the handler against the list it filters, in terms that
    do not mention it: nothing is added or reordered, and the records with
    another id are all kept. *)
Lemma without_sublist (fileId : string) (papers : list FileRecord) :
  without fileId papers `sublist_of` papers.
Proof.
  unfold without. induction papers as [|p papers IH]; simpl; [constructor|].
  destruct (sameId fileId p); simpl; by constructor.
Qed.

Lemma without_keeps_others (fileId : string) (papers : list FileRecord) :
  filter (fun x => id x ≠ fileId) (without fileId papers)
  = filter (fun x => id x ≠ fileId) papers.
Proof.
  unfold without. induction papers as [|p papers IH]; simpl; [reflexivity|].
  destruct (sameId fileId p) eqn:E; simpl.
  - apply sameId_true in E. rewrite (filter_cons_False _ p papers); [exact IH|].
    intros Hne. by apply Hne.
  - apply sameId_false in E. rewrite !filter_cons_True by exact E. by rewrite IH.
Qed.

Lemma without_first (fileId : string) (bpre bpost : list FileRecord) (r : FileRecord) :
  absent fileId bpre -> id r = fileId ->
  without fileId (bpre ++ r :: bpost) = bpre ++ without fileId bpost.
Proof.
  intros Hpre Hid. rewrite without_app, (without_absent _ _ Hpre).
  unfold without at 1. simpl. apply sameId_true in Hid. by rewrite Hid.
Qed.

(** The search on a catalog that has the id: [r] is the first record with
    the id in the order of [buckets]; the lists [bs1] before its list and
    the records [bpre] before it in its list are free of the id. *)
Lemma findAndRemove_first (fileId : string) (c : ContentCatalog) :
  wfContent c ->
  (exists r0, r0 ∈ records c /\ id r0 = fileId) ->
  exists r c' bs1 bpre bpost bs2,
    findAndRemove fileId (VContent c) = Done (Some (r, c'))
    /\ buckets c = bs1 ++ (bpre ++ r :: bpost) :: bs2
    /\ Forall (absent fileId) bs1 /\ absent fileId bpre /\ id r = fileId
    /\ buckets c' = bs1 ++ (bpre ++ without fileId bpost) :: bs2.
Proof.
  intros Hwf (r0 & Hin & Hid).
  destruct (findAndRemove_spec fileId c Hwf)
    as [[_ Habs] | (r & c' & bs1 & b & bs2 & Hfind & Hc & Hbs1 & Hb & Hc' & _)].
  - apply absent_concat in Habs. unfold absent in Habs. rewrite Forall_forall in Habs.
    destruct (Habs r0 Hin Hid).
  - destruct (find_Some_first _ _ _ Hb) as (bpre & bpost & -> & Hpre & Hr).
    exists r, c', bs1, bpre, bpost, bs2. split_and!; try done.
    by rewrite Hc', without_first.
Qed.

(** C4 does not hold of the code: the record ids are clock readings
    ([Date.now().toString()]) that the upload never checks against the
    catalog, and the delete filters the list by id.  After two uploads
    that read the same clock, the catalog has two records with the id
    1001; one delete by that id takes both out of the catalog, not exactly
    one, and removes the blob of the first only, so that the blob of the
    second stays in the Blob Store with no catalog entry. *)
Theorem adminDelete_twins :
  exists r1 r2 c' w',
    kv twoUploads !! contentKey "CSE" "3" "Data Structures"
    = Some (VContent (mkContent [r1; r2] [] (notes emptyContent)))
    /\ id r1 = "1001" /\ id r2 = "1001"
    /\ name r1 = "exam.pdf" /\ name r2 = "exam2.pdf"
    /\ adminDelete "CSE" "3" "Data Structures" "1001" false twoUploads
       = (Json 200 (BMessage "File deleted successfully"), w')
    /\ kv w' !! contentKey "CSE" "3" "Data Structures" = Some (VContent c')
    /\ records c' = []
    /\ bucket twoUploads !! path r1 = Some examPdf
    /\ bucket w' !! path r1 = None
    /\ bucket w' !! path r2 = Some (File.mk "exam2.pdf" [x25; x50]).
Proof.
  eexists _, _, _, _. split_and!.
  - vm_compute. reflexivity.
  - reflexivity.
  - reflexivity.
  - reflexivity.
  - reflexivity.
  - vm_compute. reflexivity.
  - vm_compute. reflexivity.
  - reflexivity.
  - vm_compute. reflexivity.
  - vm_compute. reflexivity.
  - vm_compute. reflexivity.
Qed.



(** On that catalog the delete by 2001 takes the paper b.pdf, the first
    match, out from between a.pdf and c.pdf, which stay, and leaves the
    note d.pdf of module 2, which has the same id, where it is. *)
Example adminDelete_busy :
  exists c',
    kv (snd (adminDelete "CSE" "3" "Data Structures" "2001" false busyUploads))
      !! contentKey "CSE" "3" "Data Structures" = Some (VContent c')
    /\ map name (previousYearPapers c') = ["a.pdf"; "c.pdf"]
    /\ map name (records c') = ["a.pdf"; "c.pdf"; "d.pdf"]
    /\ bucket (snd (adminDelete "CSE" "3" "Data Structures" "2001" false busyUploads))
         !! "CSE/3/Data Structures/previousYearPaper/2000_b.pdf" = None.
Proof.
  eexists. split_and!; [vm_compute; reflexivity | reflexivity | reflexivity
                       | vm_compute; reflexivity].
Qed.

(** The search stops at the first match: a record with the same id in a
    list behind it (here the notes of module 2, behind the IA papers) is
    still in the catalog after the call. *)
Example adminDelete_leaves_later_match :
  exists c',
    kv (snd (adminDelete "CSE" "3" "Data Structures" "1001" false mixedUploads))
      !! contentKey "CSE" "3" "Data Structures" = Some (VContent c')
    /\ iaPapers c' = []
    /\ prop "module2" (notes c')
       = Some [mkFileRecord "1001" "notes.pdf"
                 "CSE/3/Data Structures/notes/module2/1000_notes.pdf"
                 "2024-01-01T00:00:00.000Z"].
Proof. eexists. split_and!; [vm_compute; reflexivity | reflexivity | reflexivity]. Qed.

(** C7: when the delete handler finds the record and the Blob Store
    reports an error on the removal, the error goes to the console and
    nowhere else.  The handler still answers 200, File deleted
    successfully, and still writes the catalog without the record: with
    [r] the first record with the id among the records [pre ++ r :: post]
    of the catalog, the catalog written has the records [pre ++ post'],
    where [post'] is a sublist of [post] that keeps every record with
    another id.  The Blob Store is as it was, so the blob of [r] stays
    behind without a catalog entry. *)
Theorem adminDelete_storage_failure (department semester subject fileId : string)
    (w : World) (c : ContentCatalog) :
  kv w !! contentKey department semester subject = Some (VContent c) ->
  wfContent c ->
  (exists r0, r0 ∈ records c /\ id r0 = fileId) ->
  exists r c' pre post post',
    adminDelete department semester subject fileId true w
    = (Json 200 (BMessage "File deleted successfully"),
       mkWorld (<[contentKey department semester subject := VContent c']> (kv w))
               (bucket w)
               (console w ++ ["Error deleting file from storage:"]))
    /\ records c = pre ++ r :: post
    /\ absent fileId pre
    /\ id r = fileId
    /\ records c' = pre ++ post'
    /\ post' `sublist_of` post
    /\ filter (fun x => id x ≠ fileId) post' = filter (fun x => id x ≠ fileId) post.
Proof.
  intros Hkv Hwf Hin.
  destruct (findAndRemove_first fileId c Hwf Hin)
    as (r & c' & bs1 & bpre & bpost & bs2 & Hfind & Hc & Hbs1 & Hpre & Hr & Hc').
  exists r, c', (concat bs1 ++ bpre), (bpost ++ concat bs2),
    (without fileId bpost ++ concat bs2).
  split_and!.
  - apply (adminDelete_found _ _ _ _ true _ _ _ _ Hkv Hfind).
  - unfold records. rewrite Hc, concat_app. simpl. by rewrite <- !app_assoc.
  - unfold absent. apply Forall_app. split; [by apply absent_concat | exact Hpre].
  - exact Hr.
  - unfold records. rewrite Hc', concat_app. simpl. by rewrite <- !app_assoc.
  - apply sublist_app; [apply without_sublist | reflexivity].
  - by rewrite !filter_app, without_keeps_others.
Qed.

Lemma adminDelete_storage_failure_witness :
  exists r c' pre post post',
    adminDelete "CSE" "3" "Data Structures" "2001" true busyUploads
    = (Json 200 (BMessage "File deleted successfully"),
       mkWorld (<[contentKey "CSE" "3" "Data Structures" := VContent c']> (kv busyUploads))
               (bucket busyUploads)
               (console busyUploads ++ ["Error deleting file from storage:"]))
    /\ records busyCatalog = pre ++ r :: post
    /\ absent "2001" pre
    /\ id r = "2001"
    /\ records c' = pre ++ post'
    /\ post' `sublist_of` post
    /\ filter (fun x => id x ≠ "2001") post' = filter (fun x => id x ≠ "2001") post.
Proof.
  apply (adminDelete_storage_failure "CSE" "3" "Data Structures" "2001" busyUploads
           busyCatalog).
  - vm_compute. reflexivity.
  - unfold wfContent. refine (bool_decide_unpack _ _). vm_compute. exact I.
  - exists (busyRecord "2001" "b.pdf" "previousYearPaper/2000_b.pdf").
    split; [|reflexivity]. unfold records, buckets, busyCatalog. simpl. right. left.
Defined.

(** With the storage failing on that catalog, b.pdf is out of the
    catalog, the other three records are in it, and the blob of b.pdf is
    still in the Blob Store. *)
Example adminDelete_busy_storage_failure :
  exists c',
    kv (snd (adminDelete "CSE" "3" "Data Structures" "2001" true busyUploads))
      !! contentKey "CSE" "3" "Data Structures" = Some (VContent c')
    /\ map name (records c') = ["a.pdf"; "c.pdf"; "d.pdf"]
    /\ bucket (snd (adminDelete "CSE" "3" "Data Structures" "2001" true busyUploads))
         !! "CSE/3/Data Structures/previousYearPaper/2000_b.pdf"
       = Some (File.mk "b.pdf" [x25]).
Proof.
  eexists. split_and!; [vm_compute; reflexivity | reflexivity | vm_compute; reflexivity].
Qed.

(** ** The upload handlers *)

(** The subject registration writes at most the [subjects_] key; it leaves
    the Blob Store, the console and every catalog alone, whether it throws
    or not. *)
Lemma registerSubject_frame (d s sub : string) (w w' : World) (o : Outcome unit) :
  registerSubject d s sub w = (o, w') ->
  bucket w' = bucket w /\ console w' = console w
  /\ forall d' s' sub', kv w' !! contentKey d' s' sub' = kv w !! contentKey d' s' sub'.
Proof.
  unfold registerSubject, bind, kv_get, lift, kv_set, ret.
  destruct (includes _ sub) as [[|]|e]; simpl; [| |].
  - intros [= <- <-]. done.
  - destruct (pushSubject _ sub) as [v|e]; simpl; intros [= <- <-]; split_and!; try done.
    intros d' s' sub'. simpl. apply lookup_insert_ne, subjectsKey_contentKey_ne.
  - intros [= <- <-]. done.
Qed.

(** C9: the handler of POST /upload and the handler of POST /admin/upload
    are the same function: on every form, clock, storage answer and world
    they give the same response and the same world. *)
Theorem upload_adminUpload_same (form : UploadForm) (clock : Clock) (uploadFails : bool)
    (w : World) :
  upload form clock uploadFails w = adminUpload form clock uploadFails w.
Proof. reflexivity. Qed.

(** An upload that answers 200 went through every step of the handler. *)
Lemma adminUpload_200 (form : UploadForm) (clock : Clock) (uploadFails : bool) (w w' : World)
    (r : Response) :
  adminUpload form clock uploadFails w = (r, w') ->
  status r = 200 ->
  exists file d s sub ct,
    form_file form = Some file
    /\ truthy (form_department form) = Some d
    /\ truthy (form_semester form) = Some s
    /\ truthy (form_subject form) = Some sub
    /\ truthy (form_contentType form) = Some ct
    /\ uploadFails = false
    /\ let filePath := uploadPath d s sub ct (truthy (form_module form))
                         (numToString (nowName clock) +:+ "_" +:+ File.name file) in
       r = Json 200 (BUploaded "File uploaded successfully"
                       (mkFileRecord (numToString (nowId clock)) (File.name file) filePath
                          (nowIso clock)))
       /\ bucket w' = <[filePath := file]> (bucket w).
Proof.
  unfold adminUpload, try_catch. intros E Hst.
  destruct (form_file form) as [file|]; [|simplify_eq/=].
  destruct (truthy (form_department form)) as [d|]; [|simplify_eq/=].
  destruct (truthy (form_semester form)) as [s|]; [|simplify_eq/=].
  destruct (truthy (form_subject form)) as [sub|]; [|simplify_eq/=].
  destruct (truthy (form_contentType form)) as [ct|]; [|simplify_eq/=].
  exists file, d, s, sub, ct.
  unfold bind at 1 in E. unfold storage_upload in E.
  destruct uploadFails; [simplify_eq/=|].
  unfold bind at 1 in E.
  destruct (registerSubject d s sub _) as [[[]|e] w1] eqn:Ereg; [|simplify_eq/=].
  apply registerSubject_frame in Ereg as (Hb & _ & _). simpl in Hb.
  unfold bind at 1 in E. unfold kv_get in E. unfold bind at 1 in E. unfold lift in E.
  destruct (pushRecord ct _ _ _) as [updated|e]; [|simplify_eq/=].
  simpl in E. injection E as <- <-. simpl. split_and!; done.
Qed.

(** C8, as the code has it: an upload that answers 200 has written the
    file to the Blob Store at the path of the returned record, which is
    department/semester/subject/contentType/, then the segment module{n}/
    exactly when a non-empty module n came with the form (whatever the
    content type), then the clock reading, an underscore and the name of
    the file. *)
Theorem adminUpload_path (form : UploadForm) (clock : Clock) (uploadFails : bool) (w : World) :
  status (fst (adminUpload form clock uploadFails w)) = 200 ->
  exists file department semester subject contentType fileRecord,
    form_file form = Some file
    /\ form_department form = Some department
    /\ form_semester form = Some semester
    /\ form_subject form = Some subject
    /\ form_contentType form = Some contentType
    /\ fst (adminUpload form clock uploadFails w)
       = Json 200 (BUploaded "File uploaded successfully" fileRecord)
    /\ path fileRecord
       = department +:+ "/" +:+ semester +:+ "/" +:+ subject +:+ "/" +:+ contentType +:+ "/" +:+
         match form_module form with
         | Some n => if bool_decide (n = "") then "" else "module" +:+ n +:+ "/"
         | None => ""
         end +:+ numToString (nowName clock) +:+ "_" +:+ File.name file
    /\ bucket (snd (adminUpload form clock uploadFails w))
       = <[path fileRecord := file]> (bucket w).
Proof.
  destruct (adminUpload form clock uploadFails w) as [r w'] eqn:E. simpl. intros Hst.
  destruct (adminUpload_200 _ _ _ _ _ _ E Hst)
    as (file & d & s & sub & ct & Hf & Hd & Hs & Hsub & Hct & _ & -> & Hb).
  apply truthy_inv in Hd as [Hd _], Hs as [Hs _], Hsub as [Hsub _], Hct as [Hct _].
  exists file, d, s, sub, ct. eexists. split_and!; try done.
  simpl. unfold uploadPath. do 8 f_equal.
  destruct (form_module form) as [[|a n]|]; reflexivity.
Qed.

Lemma adminUpload_path_witness :
  exists file department semester subject contentType fileRecord,
    Some examPdf = Some file
    /\ Some "CSE" = Some department
    /\ Some "3" = Some semester
    /\ Some "Data Structures" = Some subject
    /\ Some "notes" = Some contentType
    /\ fst (adminUpload (sampleForm examPdf "notes" (Some "2")) sampleClock false emptyWorld)
       = Json 200 (BUploaded "File uploaded successfully" fileRecord)
    /\ path fileRecord
       = department +:+ "/" +:+ semester +:+ "/" +:+ subject +:+ "/" +:+ contentType +:+ "/" +:+
         "module2/" +:+ numToString 1000 +:+ "_" +:+ File.name file
    /\ bucket (snd (adminUpload (sampleForm examPdf "notes" (Some "2")) sampleClock false
                      emptyWorld))
       = <[path fileRecord := file]> ∅.
Proof.
  apply (adminUpload_path (sampleForm examPdf "notes" (Some "2")) sampleClock false emptyWorld).
  vm_compute. reflexivity.
Defined.

(** C8 as stated fails: the module segment does not wait for the content
    type to be notes.  An IA paper uploaded with module 2 in the form is
    written under iaPaper/module2/, where the path as the specification
    words it ([specPath]) has no module segment. *)
Lemma adminUpload_path_counterexample :
  exists fileRecord w',
    adminUpload (sampleForm examPdf "iaPaper" (Some "2")) sampleClock false emptyWorld
    = (Json 200 (BUploaded "File uploaded successfully" fileRecord), w')
    /\ path fileRecord = "CSE/3/Data Structures/iaPaper/module2/1000_exam.pdf"
    /\ bucket w' !! path fileRecord = Some examPdf
    /\ specPath "CSE" "3" "Data Structures" "iaPaper" (Some "2") (numToString 1000) "exam.pdf"
       = "CSE/3/Data Structures/iaPaper/1000_exam.pdf"
    /\ path fileRecord
       ≠ specPath "CSE" "3" "Data Structures" "iaPaper" (Some "2") (numToString 1000) "exam.pdf"
    /\ bucket w'
       !! specPath "CSE" "3" "Data Structures" "iaPaper" (Some "2") (numToString 1000) "exam.pdf"
       = None.
Proof.
  eexists _, _. split_and!.
  - vm_compute. reflexivity.
  - reflexivity.
  - vm_compute. reflexivity.
  - vm_compute. reflexivity.
  - vm_compute. discriminate.
  - vm_compute. reflexivity.
Qed.

(** C10, as the code has it: a notes upload whose module{m} is no key of
    the notes object of the catalog (the stored one, or the default for a
    key never written) reaches the append after the Blob Store write and
    the subject registration, throws there, and is answered by the 500 of
    the [catch].  The bytes are in the Blob Store and no catalog points to
    them; the catalog key is as it was; the SubjectList keeps the subject
    that the registration appended when it was not in it. *)
Theorem adminUpload_unknown_module (file : File.t) (department semester subject m : string)
    (clock : Clock) (w : World) (l : list string) (c : ContentCatalog) :
  department ≠ "" -> semester ≠ "" -> subject ≠ "" -> m ≠ "" ->
  subjectsAt w department semester = Some l ->
  default (VContent emptyContent) (kv w !! contentKey department semester subject) = VContent c ->
  prop ("module" +:+ m) (notes c) = None ->
  let form :=
    mkForm (Some file) (Some department) (Some semester) (Some subject) (Some "notes") (Some m) in
  let filePath :=
    department +:+ "/" +:+ semester +:+ "/" +:+ subject +:+ "/" +:+ "notes" +:+ "/" +:+
    ("module" +:+ m +:+ "/") +:+ numToString (nowName clock) +:+ "_" +:+ File.name file in
  let kv' :=
    if bool_decide (subject ∈ l) then kv w
    else <[subjectsKey department semester := VSubjects (l ++ [subject])]> (kv w) in
  adminUpload form clock false w
  = (Json 500 (BError "Internal server error during file upload"),
     mkWorld kv' (<[filePath := file]> (bucket w)) (console w ++ ["Upload server error:"]))
  /\ kv' !! contentKey department semester subject
     = kv w !! contentKey department semester subject.
Proof.
  intros Hd Hs Hsub Hm Hl Hc Hprop form filePath kv'.
  assert (Hkey : kv' !! contentKey department semester subject
                 = kv w !! contentKey department semester subject).
  { unfold kv'. case_bool_decide; [reflexivity|].
    apply lookup_insert_ne, subjectsKey_contentKey_ne. }
  split; [|exact Hkey].
  unfold adminUpload, try_catch, form.
  cbn [form_file form_department form_semester form_subject form_contentType form_module].
  rewrite !truthy_Some by (assumption || discriminate).
  unfold bind at 1. unfold storage_upload.
  set (w1 := mkWorld (kv w) _ (console w)).
  assert (Hl1 : subjectsAt w1 department semester = Some l) by exact Hl.
  unfold bind at 1. rewrite (registerSubject_run _ _ subject _ _ Hl1).
  unfold bind at 1, kv_get.
  assert (Hkv : kv (registered w1 department semester subject l) = kv') by
    (unfold registered, kv'; by case_bool_decide).
  rewrite Hkv, Hkey, Hc.
  unfold bind at 1, lift, pushRecord.
  change (String.eqb "notes" "previousYearPaper") with false.
  change (String.eqb "notes" "iaPaper") with false.
  change (String.eqb "notes" "notes") with true.
  cbn iota. rewrite Hprop, Hkv.
  assert (Hbucket : bucket (registered w1 department semester subject l) = bucket w1)
    by (unfold registered; by case_bool_decide).
  assert (Hconsole : console (registered w1 department semester subject l) = console w1)
    by (unfold registered; by case_bool_decide).
  rewrite Hbucket, Hconsole. reflexivity.
Qed.

Lemma adminUpload_unknown_module_witness :
  adminUpload (sampleForm examPdf "notes" (Some "6")) sampleClock false oneUpload
  = (Json 500 (BError "Internal server error during file upload"),
     mkWorld (kv oneUpload)
       (<["CSE/3/Data Structures/notes/module6/1000_exam.pdf" := examPdf]> (bucket oneUpload))
       ["Upload server error:"]).
Proof.
  refine (proj1 (adminUpload_unknown_module examPdf "CSE" "3" "Data Structures" "6"
                   sampleClock oneUpload ["Data Structures"] oneCatalog _ _ _ _ _ _ _));
    try discriminate; vm_compute; reflexivity.
Defined.

(** C10 as stated fails on the Catalog Store: it is not left unchanged.
    From the empty world, a notes upload for module 6 is answered 500 with
    the bytes written, and the SubjectList of (CSE, 3), unwritten before,
    now holds the subject. *)
Lemma adminUpload_unknown_module_counterexample :
  exists w',
    adminUpload (sampleForm examPdf "notes" (Some "6")) sampleClock false emptyWorld
    = (Json 500 (BError "Internal server error during file upload"), w')
    /\ bucket w' !! "CSE/3/Data Structures/notes/module6/1000_exam.pdf" = Some examPdf
    /\ kv emptyWorld !! subjectsKey "CSE" "3" = None
    /\ kv w' !! subjectsKey "CSE" "3" = Some (VSubjects ["Data Structures"])
    /\ kv w' ≠ kv emptyWorld.
Proof.
  eexists. split_and!.
  - vm_compute. reflexivity.
  - vm_compute. reflexivity.
  - reflexivity.
  - vm_compute. reflexivity.
  - intros H. apply (f_equal (fun m => m !! subjectsKey "CSE" "3")) in H.
    vm_compute in H. discriminate H.
Qed.

(** The module is not among the checked fields: a notes upload without
    module, with the other fields present and the storage answering well,
    is never answered 400, and its bytes are in the Blob Store under
    notes/ with no module segment. *)
Lemma adminUpload_module_unchecked (file : File.t) (department semester subject : string)
    (clock : Clock) (w : World) :
  department ≠ "" -> semester ≠ "" -> subject ≠ "" ->
  let form :=
    mkForm (Some file) (Some department) (Some semester) (Some subject) (Some "notes") None in
  let filePath :=
    department +:+ "/" +:+ semester +:+ "/" +:+ subject +:+ "/" +:+ "notes" +:+ "/" +:+
    numToString (nowName clock) +:+ "_" +:+ File.name file in
  status (fst (adminUpload form clock false w)) ≠ 400
  /\ bucket (snd (adminUpload form clock false w)) = <[filePath := file]> (bucket w).
Proof.
  intros Hd Hs Hsub form filePath.
  destruct (adminUpload form clock false w) as [r w'] eqn:E. simpl.
  unfold adminUpload, try_catch, form in E.
  cbn [form_file form_department form_semester form_subject form_contentType form_module] in E.
  rewrite !truthy_Some in E by (assumption || discriminate).
  unfold bind at 1 in E. unfold storage_upload in E.
  unfold bind at 1 in E.
  destruct (registerSubject department semester subject _) as [[[]|e] w1] eqn:Ereg;
    apply registerSubject_frame in Ereg as (Hb & _ & _); simpl in Hb.
  - unfold bind at 1 in E. unfold kv_get in E. unfold bind at 1 in E.
    unfold lift, pushRecord in E.
    change (String.eqb "notes" "previousYearPaper") with false in E.
    change (String.eqb "notes" "iaPaper") with false in E.
    change (String.eqb "notes" "notes") with true in E.
    cbn in E. injection E as <- <-. split; [discriminate | exact Hb].
  - cbn in E. injection E as <- <-. split; [discriminate | exact Hb].
Qed.

(** C1 does not hold of the code: the handler checks the file, the
    department, the semester, the subject and the content type, and not
    the module.  A notes upload without module is answered 200; the bytes
    are written to the Blob Store, the subject is registered, the catalog
    key is written, and the record that the response returns is in no list
    of the catalog. *)
Theorem adminUpload_notes_without_module :
  exists fileRecord w',
    adminUpload (sampleForm examPdf "notes" None) sampleClock false emptyWorld
    = (Json 200 (BUploaded "File uploaded successfully" fileRecord), w')
    /\ path fileRecord = "CSE/3/Data Structures/notes/1000_exam.pdf"
    /\ bucket w' !! path fileRecord = Some examPdf
    /\ kv w' !! subjectsKey "CSE" "3" = Some (VSubjects ["Data Structures"])
    /\ kv w' !! contentKey "CSE" "3" "Data Structures" = Some (VContent emptyContent)
    /\ records emptyContent = [].
Proof.
  eexists _, _. split_and!; try reflexivity; vm_compute; reflexivity.
Qed.

(** ** End to end *)

(** The scenario of the specification: exam.pdf uploaded as a
    previous-year paper of (CSE, 3, Data Structures) is the one entry of
    [previousYearPapers]; after the delete by its id the list is empty and
    the blob is gone. *)
Example upload_read_delete :
  fst (getContent "CSE" "3" "Data Structures" oneUpload)
  = Json 200 (BValue (VContent oneCatalog))
  /\ map name (previousYearPapers oneCatalog) = ["exam.pdf"]
  /\ fst (getContent "CSE" "3" "Data Structures"
            (snd (adminDelete "CSE" "3" "Data Structures" "1001" false oneUpload)))
     = Json 200 (BValue (VContent emptyContent))
  /\ bucket (snd (adminDelete "CSE" "3" "Data Structures" "1001" false oneUpload)) = ∅.
Proof. split_and!; vm_compute; reflexivity. Qed.

(** * Further properties of the handlers *)

(** ** The subject list *)

(** The subject list of a pair never written is answered as the empty
    array, and the answer is not stored. *)
Theorem getSubjects_never_written (department semester : string) (w : World) :
  kv w !! subjectsKey department semester = None ->
  getSubjects department semester w = (Json 200 (BValue (VSubjects [])), w).
Proof.
  intros H. unfold getSubjects, try_catch, bind, kv_get, ret. by rewrite H.
Qed.

Lemma getSubjects_never_written_witness :
  getSubjects "CSE" "3" emptyWorld = (Json 200 (BValue (VSubjects [])), emptyWorld).
Proof. apply (getSubjects_never_written "CSE" "3" emptyWorld). reflexivity. Defined.

Lemma getSubjects_run (d s : string) (w : World) (l : list string) :
  subjectsAt w d s = Some l ->
  getSubjects d s w = (Json 200 (BValue (VSubjects l)), w).
Proof.
  unfold subjectsAt, getSubjects, try_catch, bind, kv_get, ret.
  destruct (kv w !! subjectsKey d s) as [[l'|c]|]; intros [= <-]; reflexivity.
Qed.

Lemma addSubject_run (d s sub : string) (w : World) (l : list string) :
  d ≠ "" -> s ≠ "" -> sub ≠ "" ->
  subjectsAt w d s = Some l ->
  addSubject (Some d) (Some s) (Some sub) w
  = (Json 200 (BMessage "Subject added successfully"), registered w d s sub l).
Proof.
  intros Hd Hs Hsub Hl. unfold addSubject, try_catch, bind.
  rewrite !truthy_Some by assumption.
  by rewrite (registerSubject_run _ _ _ _ _ Hl).
Qed.

(** Adding a subject and reading the list back: the list read is the one
    before with the subject in it, appended last when it was new; the
    subjects already there keep their places, and a list without
    duplicates stays without duplicates. *)
Theorem addSubject_then_getSubjects (department semester subject : string) (w : World)
    (l : list string) :
  department ≠ "" -> semester ≠ "" -> subject ≠ "" ->
  subjectsAt w department semester = Some l ->
  let w1 := snd (addSubject (Some department) (Some semester) (Some subject) w) in
  exists l',
    getSubjects department semester w1 = (Json 200 (BValue (VSubjects l')), w1)
    /\ subject ∈ l'
    /\ (l' = l \/ ((subject ∉ l) /\ l' = l ++ [subject]))
    /\ (NoDup l -> NoDup l').
Proof.
  intros Hd Hs Hsub Hl w1. unfold w1.
  rewrite (addSubject_run _ _ _ _ _ Hd Hs Hsub Hl). simpl.
  pose proof (subjectsAt_registered _ _ subject _ _ Hl) as Hl1.
  eexists. split; [apply getSubjects_run, Hl1|].
  case_bool_decide as Hin.
  - split_and!; [done | by left | done].
  - split_and!; [apply elem_of_app; right; left | by right |].
    intros Hnd. apply NoDup_app. split_and!; [done | | apply NoDup_singleton].
    intros x Hx Hx'. apply list_elem_of_singleton in Hx' as ->. done.
Qed.

Lemma addSubject_then_getSubjects_witness :
  exists l',
    getSubjects "CSE" "3" (snd (addSubject (Some "CSE") (Some "3") (Some "Data Structures") oneUpload))
    = (Json 200 (BValue (VSubjects l')),
       snd (addSubject (Some "CSE") (Some "3") (Some "Data Structures") oneUpload))
    /\ "Data Structures" ∈ l'
    /\ (l' = ["Data Structures"]
        \/ (("Data Structures" ∉ ["Data Structures"])
            /\ l' = ["Data Structures"] ++ ["Data Structures"]))
    /\ (NoDup ["Data Structures"] -> NoDup l').
Proof.
  apply (addSubject_then_getSubjects "CSE" "3" "Data Structures" oneUpload ["Data Structures"]);
    try discriminate.
  vm_compute. reflexivity.
Defined.

(** A request that lacks one of the three fields, or has it empty, is
    answered 400 and nothing is written. *)
Theorem addSubject_missing_field (department semester subject : option string) (w : World) :
  truthy department = None \/ truthy semester = None \/ truthy subject = None ->
  addSubject department semester subject w = (Json 400 (BError "Missing required fields"), w).
Proof.
  intros H. unfold addSubject, try_catch.
  destruct (truthy department), (truthy semester), (truthy subject);
    try reflexivity; destruct H as [H | [H | H]]; discriminate H.
Qed.

Lemma addSubject_missing_field_witness :
  addSubject (Some "CSE") (Some "") (Some "Data Structures") oneUpload
  = (Json 400 (BError "Missing required fields"), oneUpload).
Proof.
  apply (addSubject_missing_field (Some "CSE") (Some "") (Some "Data Structures") oneUpload).
  right. left. reflexivity.
Defined.

(** Adding a subject writes one key at most: every other key of the
    Catalog Store, the catalogs among them, and the Blob Store are as they
    were, whatever the request. *)
Theorem addSubject_frame (department semester subject : option string) (w : World)
    (k : string) :
  (forall d s, department = Some d -> semester = Some s -> k ≠ subjectsKey d s) ->
  let w1 := snd (addSubject department semester subject w) in
  kv w1 !! k = kv w !! k /\ bucket w1 = bucket w.
Proof.
  intros Hk w1. unfold w1, addSubject, try_catch.
  destruct (truthy department) as [d|] eqn:Ed; [|done].
  destruct (truthy semester) as [s|] eqn:Es; [|done].
  destruct (truthy subject) as [sub|] eqn:Esub; [|done].
  apply truthy_inv in Ed as [-> _], Es as [-> _].
  unfold bind, registerSubject, bind, kv_get, lift, kv_set, ret.
  destruct (includes _ sub) as [[|]|e]; simpl; [done | | done].
  destruct (pushSubject _ sub) as [v|e]; simpl; [|done].
  split; [|done]. apply lookup_insert_ne. intros Heq. by apply (Hk d s).
Qed.

Lemma addSubject_frame_witness :
  let w1 := snd (addSubject (Some "CSE") (Some "4") (Some "Computer Networks") oneUpload) in
  kv w1 !! contentKey "CSE" "3" "Data Structures"
  = kv oneUpload !! contentKey "CSE" "3" "Data Structures"
  /\ bucket w1 = bucket oneUpload.
Proof.
  apply (addSubject_frame (Some "CSE") (Some "4") (Some "Computer Networks") oneUpload
           (contentKey "CSE" "3" "Data Structures")).
  intros d s _ _ H. symmetry in H. by apply subjectsKey_contentKey_ne in H.
Defined.

(** ** The middleware *)

Lemma splitSpace_noSpace (s : string) : hasSpace s = false -> splitSpace s = [s].
Proof.
  induction s as [|c s IH]; simpl; [reflexivity|].
  destruct (Ascii.eqb c " "); simpl; [discriminate|]. intros H. by rewrite (IH H).
Qed.

Lemma splitSpace_app (a b : string) :
  hasSpace a = false -> splitSpace (a +:+ " " +:+ b) = a :: splitSpace b.
Proof.
  induction a as [|c a IH]; simpl; [reflexivity|].
  destruct (Ascii.eqb c " "); simpl; [discriminate|]. intros H. by rewrite (IH H).
Qed.

Lemma append_empty_r (s : string) : s +:+ "" = s.
Proof.
  induction s as [|c s IH]; [reflexivity|].
  change (String c (s +:+ "") = String c s). by rewrite IH.
Qed.

(** A request to a protected route without a usable token is answered 401
    before the handler runs, and the world is as it was.  This is so
    without Authorization header, with a header that has no space in it,
    and with a header whose first space is its last character or is
    followed by a second space (the token is the piece between the first
    two spaces). *)
Theorem requireAuth_no_token (authorization : option string)
    (getUser : string -> option string) (next : World -> Response * World) (w : World) :
  authorization = None
  \/ (exists header, authorization = Some header /\ hasSpace header = false)
  \/ (exists scheme rest,
        authorization = Some (scheme +:+ " " +:+ rest) /\ hasSpace scheme = false
        /\ (rest = "" \/ exists rest', rest = " " +:+ rest')) ->
  requireAuth authorization getUser next w
  = (Json 401 (BError "No authorization token provided"), w).
Proof.
  intros H. unfold requireAuth.
  assert (Htoken : truthy (accessToken authorization) = None); [|by rewrite Htoken].
  destruct H as [-> | [(header & -> & Hh) | (scheme & rest & -> & Hs & Hrest)]].
  - reflexivity.
  - unfold accessToken. by rewrite splitSpace_noSpace.
  - unfold accessToken. rewrite splitSpace_app by assumption.
    destruct Hrest as [-> | [rest' ->]]; reflexivity.
Qed.

Lemma requireAuth_no_token_witness :
  requireAuth (Some "Bearer  abc") (fun _ => Some "admin")
    (adminDelete "CSE" "3" "Data Structures" "1001" false) oneUpload
  = (Json 401 (BError "No authorization token provided"), oneUpload).
Proof.
  apply (requireAuth_no_token (Some "Bearer  abc")).
  right. right. exists "Bearer", " abc". split_and!; [reflexivity | reflexivity |].
  right. by exists "abc".
Defined.

(** The token is the second space-separated piece of the header, whatever
    the first piece (the scheme is not looked at) and whatever follows a
    later space.  With such a token the identity service decides: the
    handler runs on the world as it is when the token resolves to a user;
    otherwise the answer is 401, the refusal is logged and both stores are
    as they were. *)
Theorem requireAuth_token (scheme token tail : string)
    (getUser : string -> option string) (next : World -> Response * World) (w : World) :
  hasSpace scheme = false -> hasSpace token = false -> token ≠ "" ->
  tail = "" \/ (exists tail', tail = " " +:+ tail') ->
  requireAuth (Some (scheme +:+ " " +:+ token +:+ tail)) getUser next w
  = match getUser token with
    | Some user => next w
    | None =>
        (Json 401 (BError "Unauthorized access attempt"),
         mkWorld (kv w) (bucket w)
           (console w ++ ["Authorization error while verifying admin access:"]))
    end.
Proof.
  intros Hs Ht Hne Htail. unfold requireAuth, accessToken.
  rewrite splitSpace_app by assumption.
  assert (Hsplit : splitSpace (token +:+ tail) !! 0 = Some token).
  { destruct Htail as [-> | [tail' ->]].
    - by rewrite append_empty_r, splitSpace_noSpace.
    - by rewrite splitSpace_app. }
  simpl. rewrite Hsplit, truthy_Some by assumption. reflexivity.
Qed.

Lemma requireAuth_token_witness :
  requireAuth (Some "Basic abc") (fun t => if String.eqb t "abc" then Some "admin" else None)
    (adminDelete "CSE" "3" "Data Structures" "1001" false) oneUpload
  = adminDelete "CSE" "3" "Data Structures" "1001" false oneUpload.
Proof.
  apply (requireAuth_token "Basic" "abc" ""
           (fun t => if String.eqb t "abc" then Some "admin" else None)
           (adminDelete "CSE" "3" "Data Structures" "1001" false) oneUpload);
    try reflexivity; [discriminate | by left].
Defined.

(** ** Uploads *)

Section ValidUpload.

Variables (form : UploadForm) (clock : Clock) (w : World).
Variables (file : File.t) (d s sub ct : string).
Hypothesis Hfile : form_file form = Some file.
Hypothesis Hd : truthy (form_department form) = Some d.
Hypothesis Hs : truthy (form_semester form) = Some s.
Hypothesis Hsub : truthy (form_subject form) = Some sub.
Hypothesis Hct : truthy (form_contentType form) = Some ct.

Let filePath : string :=
  uploadPath d s sub ct (truthy (form_module form))
    (numToString (nowName clock) +:+ "_" +:+ File.name file).

Let fileRecord : FileRecord :=
  mkFileRecord (numToString (nowId clock)) (File.name file) filePath (nowIso clock).

(** The storage refuses the bytes: nothing is written. *)
Lemma adminUpload_refused :
  adminUpload form clock true w
  = (Json 500 (BError "Failed to upload file"),
     mkWorld (kv w) (bucket w) (console w ++ ["File upload error:"])).
Proof. unfold adminUpload, try_catch. by rewrite Hfile, Hd, Hs, Hsub, Hct. Qed.

(** The bytes are stored and the subject list is an array: the handler
    goes on to the append, which decides the answer. *)
Lemma adminUpload_run (l : list string) :
  subjectsAt w d s = Some l ->
  let kv1 :=
    if bool_decide (sub ∈ l) then kv w
    else <[subjectsKey d s := VSubjects (l ++ [sub])]> (kv w) in
  adminUpload form clock false w
  = match pushRecord ct (truthy (form_module form)) fileRecord
            (default (VContent emptyContent) (kv w !! contentKey d s sub)) with
    | Done updated =>
        (Json 200 (BUploaded "File uploaded successfully" fileRecord),
         mkWorld (<[contentKey d s sub := updated]> kv1) (<[filePath := file]> (bucket w))
           (console w))
    | Thrown _ =>
        (Json 500 (BError "Internal server error during file upload"),
         mkWorld kv1 (<[filePath := file]> (bucket w)) (console w ++ ["Upload server error:"]))
    end.
Proof.
  intros Hl kv1. unfold adminUpload, try_catch. rewrite Hfile, Hd, Hs, Hsub, Hct.
  unfold bind at 1. unfold storage_upload.
  set (w1 := mkWorld (kv w) _ (console w)).
  assert (Hl1 : subjectsAt w1 d s = Some l) by exact Hl.
  unfold bind at 1. rewrite (registerSubject_run _ _ sub _ _ Hl1).
  unfold bind at 1, kv_get.
  assert (Hkv : kv (registered w1 d s sub l) = kv1)
    by (unfold registered, kv1; by case_bool_decide).
  assert (Hbucket : bucket (registered w1 d s sub l) = bucket w1)
    by (unfold registered; by case_bool_decide).
  assert (Hconsole : console (registered w1 d s sub l) = console w1)
    by (unfold registered; by case_bool_decide).
  assert (Hkey : kv1 !! contentKey d s sub = kv w !! contentKey d s sub).
  { unfold kv1. case_bool_decide; [reflexivity|].
    apply lookup_insert_ne, subjectsKey_contentKey_ne. }
  rewrite Hkv, Hkey. unfold bind at 1, lift.
  destruct (pushRecord ct _ _ _) as [updated|e]; cbn [kv_set bind ret];
    unfold bind, kv_set, ret; cbn [kv bucket console];
    by rewrite ?Hkv, ?Hbucket, ?Hconsole.
Qed.

(** The bytes are stored and the value under the subjects key is no
    array: the registration throws. *)
Lemma adminUpload_no_array :
  subjectsAt w d s = None ->
  adminUpload form clock false w
  = (Json 500 (BError "Internal server error during file upload"),
     mkWorld (kv w) (<[filePath := file]> (bucket w)) (console w ++ ["Upload server error:"])).
Proof.
  intros Hl. unfold adminUpload, try_catch. rewrite Hfile, Hd, Hs, Hsub, Hct.
  unfold bind at 1. unfold storage_upload. unfold bind at 1.
  unfold registerSubject, bind, kv_get, lift. cbn [kv].
  unfold subjectsAt in Hl.
  destruct (kv w !! subjectsKey d s) as [[l|c]|]; try discriminate Hl. reflexivity.
Qed.

End ValidUpload.

(** An upload form that lacks the file or one of the four required
    fields, or has the field empty, is answered 400; nothing is written to
    either store. *)
Theorem adminUpload_missing_field (form : UploadForm) (clock : Clock) (uploadFails : bool)
    (w : World) :
  form_file form = None
  \/ truthy (form_department form) = None
  \/ truthy (form_semester form) = None
  \/ truthy (form_subject form) = None
  \/ truthy (form_contentType form) = None ->
  adminUpload form clock uploadFails w = (Json 400 (BError "Missing required fields"), w).
Proof.
  intros H. unfold adminUpload, try_catch.
  destruct (form_file form), (truthy (form_department form)), (truthy (form_semester form)),
    (truthy (form_subject form)), (truthy (form_contentType form));
    try reflexivity; destruct H as [H | [H | [H | [H | H]]]]; discriminate H.
Qed.

Lemma adminUpload_missing_field_witness :
  adminUpload (mkForm (Some examPdf) (Some "CSE") (Some "3") None (Some "notes") (Some "1"))
    sampleClock false oneUpload
  = (Json 400 (BError "Missing required fields"), oneUpload).
Proof.
  apply (adminUpload_missing_field
           (mkForm (Some examPdf) (Some "CSE") (Some "3") None (Some "notes") (Some "1"))).
  right. right. right. left. reflexivity.
Defined.

(** When the Blob Store refuses the bytes the upload is answered 500,
    Failed to upload file: the subject is not registered, no record is
    added, and both stores are as they were; the failure is logged. *)
Theorem adminUpload_storage_failure (file : File.t)
    (department semester subject contentType : string) (module : option string)
    (clock : Clock) (w : World) :
  department ≠ "" -> semester ≠ "" -> subject ≠ "" -> contentType ≠ "" ->
  adminUpload
    (mkForm (Some file) (Some department) (Some semester) (Some subject) (Some contentType)
       module) clock true w
  = (Json 500 (BError "Failed to upload file"),
     mkWorld (kv w) (bucket w) (console w ++ ["File upload error:"])).
Proof.
  intros Hd Hs Hsub Hct.
  eapply adminUpload_refused; cbn [form_file form_department form_semester form_subject
    form_contentType]; try reflexivity; by apply truthy_Some.
Qed.

Lemma adminUpload_storage_failure_witness :
  adminUpload (sampleForm examPdf "iaPaper" None) sampleClock true oneUpload
  = (Json 500 (BError "Failed to upload file"),
     mkWorld (kv oneUpload) (bucket oneUpload) (console oneUpload ++ ["File upload error:"])).
Proof.
  apply (adminUpload_storage_failure examPdf "CSE" "3" "Data Structures" "iaPaper" None
           sampleClock oneUpload); discriminate.
Defined.

Lemma getContent_run (d s sub : string) (w : World) (v : Value) :
  kv w !! contentKey d s sub = Some v ->
  getContent d s sub w = (Json 200 (BValue v), w).
Proof. intros H. unfold getContent, try_catch, bind, kv_get, ret. by rewrite H. Qed.

Lemma prop_assign_eq {V} (key : string) (v : V) (o : Obj V) :
  prop key (assign key v o) = Some v.
Proof.
  induction o as [|[k v'] o IH]; simpl.
  - by rewrite String.eqb_refl.
  - destruct (String.eqb k key) eqn:E; simpl; by rewrite E.
Qed.

Lemma prop_assign_ne {V} (key k : string) (v : V) (o : Obj V) :
  k ≠ key -> prop k (assign key v o) = prop k o.
Proof.
  intros Hne. induction o as [|[k' v'] o IH]; simpl.
  - apply String.eqb_neq in Hne. rewrite String.eqb_sym in Hne. by rewrite Hne.
  - destruct (String.eqb k' key) eqn:E; simpl.
    + apply String.eqb_eq in E as ->.
      assert (String.eqb key k = false) as -> by (apply String.eqb_neq; congruence). done.
    + by rewrite IH.
Qed.

Lemma keys_assign {V} (key : string) (v : V) (o : Obj V) :
  is_Some (prop key o) -> keys (assign key v o) = keys o.
Proof.
  induction o as [|[k v'] o IH]; simpl; [by intros [? ?]|].
  destruct (String.eqb k key) eqn:E; simpl; [done|]. intros H. by rewrite IH.
Qed.

Lemma prop_Some_split {V} (key : string) (o : Obj V) (v : V) :
  prop key o = Some v ->
  exists t1 t2, o = t1 ++ (key, v) :: t2 /\ key ∉ keys t1.
Proof.
  induction o as [|[k v'] o IH]; simpl; [discriminate|].
  destruct (String.eqb k key) eqn:E.
  - intros [= ->]. apply String.eqb_eq in E as ->.
    exists [], o. split; [reflexivity | apply not_elem_of_nil].
  - intros H. destruct (IH H) as (t1 & t2 & -> & Hk).
    exists ((k, v') :: t1), t2. split; [reflexivity|].
    apply not_elem_of_cons. split; [|exact Hk].
    apply String.eqb_neq in E. intros Heq. apply E. by symmetry.
Qed.

Lemma eqb_false (a b : string) : a ≠ b -> String.eqb a b = false.
Proof. apply String.eqb_neq. Qed.

(** An upload as a previous-year paper or as an IA paper, read back: the
    answer is 200 with the record made from the second clock reading, the
    file name and the storage path; the bytes are in the Blob Store under
    that path; and the catalog read afterwards is the one before (the
    default one for a key never written) with the record appended last to
    the list of that type, the other list and the notes being the same. *)
Theorem adminUpload_paper_listed (file : File.t)
    (department semester subject contentType : string) (module : option string)
    (clock : Clock) (w : World) (l : list string) (c : ContentCatalog) :
  department ≠ "" -> semester ≠ "" -> subject ≠ "" ->
  contentType = "previousYearPaper" \/ contentType = "iaPaper" ->
  subjectsAt w department semester = Some l ->
  default (VContent emptyContent) (kv w !! contentKey department semester subject) = VContent c ->
  let form :=
    mkForm (Some file) (Some department) (Some semester) (Some subject) (Some contentType)
      module in
  let w' := snd (adminUpload form clock false w) in
  exists fileRecord,
    fst (adminUpload form clock false w)
    = Json 200 (BUploaded "File uploaded successfully" fileRecord)
    /\ id fileRecord = numToString (nowId clock)
    /\ name fileRecord = File.name file
    /\ uploadedAt fileRecord = nowIso clock
    /\ bucket w' !! path fileRecord = Some file
    /\ getContent department semester subject w'
       = (Json 200
            (BValue (VContent
               (if String.eqb contentType "previousYearPaper"
                then mkContent (previousYearPapers c ++ [fileRecord]) (iaPapers c) (notes c)
                else mkContent (previousYearPapers c) (iaPapers c ++ [fileRecord]) (notes c)))),
          w').
Proof.
  intros Hd Hs Hsub Hct Hl Hc form w'.
  assert (Hne : contentType ≠ "") by (destruct Hct as [-> | ->]; discriminate).
  pose proof (adminUpload_run form clock w file department semester subject contentType
                eq_refl (truthy_Some _ Hd) (truthy_Some _ Hs) (truthy_Some _ Hsub)
                (truthy_Some _ Hne) l Hl) as Hrun.
  cbv zeta in Hrun. rewrite Hc in Hrun. unfold w'. rewrite Hrun. clear Hrun.
  eexists. unfold pushRecord.
  destruct Hct as [-> | ->]; cbn [String.eqb Ascii.eqb Bool.eqb fst snd];
    (split_and!; [reflexivity | reflexivity | reflexivity | reflexivity
                 | cbn [bucket path]; apply lookup_insert_eq
                 | apply getContent_run; cbn [kv]; apply lookup_insert_eq]).
Qed.

Lemma adminUpload_paper_listed_witness :
  exists fileRecord,
    fst (adminUpload (sampleForm examPdf "iaPaper" None) sampleClock false oneUpload)
    = Json 200 (BUploaded "File uploaded successfully" fileRecord)
    /\ id fileRecord = numToString 1001
    /\ name fileRecord = "exam.pdf"
    /\ uploadedAt fileRecord = "2024-01-01T00:00:00.000Z"
    /\ bucket (snd (adminUpload (sampleForm examPdf "iaPaper" None) sampleClock false oneUpload))
         !! path fileRecord = Some examPdf
    /\ getContent "CSE" "3" "Data Structures"
         (snd (adminUpload (sampleForm examPdf "iaPaper" None) sampleClock false oneUpload))
       = (Json 200
            (BValue (VContent
               (mkContent (previousYearPapers oneCatalog) (iaPapers oneCatalog ++ [fileRecord])
                  (notes oneCatalog)))),
          snd (adminUpload (sampleForm examPdf "iaPaper" None) sampleClock false oneUpload)).
Proof.
  apply (adminUpload_paper_listed examPdf "CSE" "3" "Data Structures" "iaPaper" None
           sampleClock oneUpload ["Data Structures"] oneCatalog);
    try discriminate; try (vm_compute; reflexivity).
  by right.
Defined.

(** An upload of notes for a module that the notes object of the catalog
    has, read back: the answer is 200, and the catalog read afterwards has
    the record appended last to the list of that module; the lists of the
    other modules, the keys of the notes object and the two paper lists
    are the same. *)
Theorem adminUpload_notes_listed (file : File.t) (department semester subject m : string)
    (clock : Clock) (w : World) (l : list string) (c : ContentCatalog)
    (b : list FileRecord) :
  department ≠ "" -> semester ≠ "" -> subject ≠ "" -> m ≠ "" ->
  subjectsAt w department semester = Some l ->
  default (VContent emptyContent) (kv w !! contentKey department semester subject) = VContent c ->
  prop ("module" +:+ m) (notes c) = Some b ->
  let form :=
    mkForm (Some file) (Some department) (Some semester) (Some subject) (Some "notes")
      (Some m) in
  let w' := snd (adminUpload form clock false w) in
  exists fileRecord c',
    fst (adminUpload form clock false w)
    = Json 200 (BUploaded "File uploaded successfully" fileRecord)
    /\ bucket w' !! path fileRecord = Some file
    /\ getContent department semester subject w' = (Json 200 (BValue (VContent c')), w')
    /\ previousYearPapers c' = previousYearPapers c
    /\ iaPapers c' = iaPapers c
    /\ keys (notes c') = keys (notes c)
    /\ prop ("module" +:+ m) (notes c') = Some (b ++ [fileRecord])
    /\ (forall k, k ≠ "module" +:+ m -> prop k (notes c') = prop k (notes c)).
Proof.
  intros Hd Hs Hsub Hm Hl Hc Hb form w'.
  pose proof (adminUpload_run form clock w file department semester subject "notes"
                eq_refl (truthy_Some _ Hd) (truthy_Some _ Hs) (truthy_Some _ Hsub)
                eq_refl l Hl) as Hrun.
  cbv zeta in Hrun. rewrite Hc in Hrun. unfold w'. rewrite Hrun. clear Hrun.
  unfold pushRecord. cbn [form_module form]. rewrite (truthy_Some _ Hm).
  change (String.eqb "notes" "previousYearPaper") with false.
  change (String.eqb "notes" "iaPaper") with false.
  change (String.eqb "notes" "notes") with true.
  cbn iota. rewrite Hb. cbn [fst snd].
  eexists _, _. split; [reflexivity|].
  split; [cbn [bucket path]; apply lookup_insert_eq|].
  split; [apply getContent_run; cbn [kv]; apply lookup_insert_eq|].
  cbn [previousYearPapers iaPapers notes]. split_and!; [reflexivity | reflexivity | | |].
  - apply keys_assign. by rewrite Hb.
  - apply prop_assign_eq.
  - intros k Hk. by apply prop_assign_ne.
Qed.

Lemma adminUpload_notes_listed_witness :
  exists fileRecord c',
    fst (adminUpload (sampleForm examPdf "notes" (Some "2")) sampleClock false oneUpload)
    = Json 200 (BUploaded "File uploaded successfully" fileRecord)
    /\ bucket (snd (adminUpload (sampleForm examPdf "notes" (Some "2")) sampleClock false
                      oneUpload)) !! path fileRecord = Some examPdf
    /\ getContent "CSE" "3" "Data Structures"
         (snd (adminUpload (sampleForm examPdf "notes" (Some "2")) sampleClock false oneUpload))
       = (Json 200 (BValue (VContent c')),
          snd (adminUpload (sampleForm examPdf "notes" (Some "2")) sampleClock false oneUpload))
    /\ previousYearPapers c' = previousYearPapers oneCatalog
    /\ iaPapers c' = iaPapers oneCatalog
    /\ keys (notes c') = keys (notes oneCatalog)
    /\ prop ("module" +:+ "2") (notes c') = Some ([] ++ [fileRecord])
    /\ (forall k, k ≠ "module" +:+ "2" -> prop k (notes c') = prop k (notes oneCatalog)).
Proof.
  apply (adminUpload_notes_listed examPdf "CSE" "3" "Data Structures" "2" sampleClock
           oneUpload ["Data Structures"] oneCatalog []);
    try discriminate; vm_compute; reflexivity.
Defined.

(** The content type is not checked against the three lists: an upload
    with any other content type is answered 200 and its bytes are stored,
    but the record is appended nowhere.  The value read under the catalog
    key afterwards is the one before, or the default catalog for a key
    never written. *)
Theorem adminUpload_unknown_type (file : File.t)
    (department semester subject contentType : string) (module : option string)
    (clock : Clock) (w : World) (l : list string) :
  department ≠ "" -> semester ≠ "" -> subject ≠ "" -> contentType ≠ "" ->
  contentType ≠ "previousYearPaper" -> contentType ≠ "iaPaper" -> contentType ≠ "notes" ->
  subjectsAt w department semester = Some l ->
  let form :=
    mkForm (Some file) (Some department) (Some semester) (Some subject) (Some contentType)
      module in
  let w' := snd (adminUpload form clock false w) in
  exists fileRecord,
    fst (adminUpload form clock false w)
    = Json 200 (BUploaded "File uploaded successfully" fileRecord)
    /\ bucket w' !! path fileRecord = Some file
    /\ getContent department semester subject w'
       = (Json 200
            (BValue (default (VContent emptyContent)
                       (kv w !! contentKey department semester subject))),
          w').
Proof.
  intros Hd Hs Hsub Hne H1 H2 H3 Hl form w'.
  pose proof (adminUpload_run form clock w file department semester subject contentType
                eq_refl (truthy_Some _ Hd) (truthy_Some _ Hs) (truthy_Some _ Hsub)
                (truthy_Some _ Hne) l Hl) as Hrun.
  cbv zeta in Hrun. unfold w'. rewrite Hrun. clear Hrun.
  unfold pushRecord. rewrite (eqb_false _ _ H1), (eqb_false _ _ H2), (eqb_false _ _ H3).
  cbn [fst snd]. eexists. split_and!; [reflexivity | |].
  - cbn [bucket path]. apply lookup_insert_eq.
  - apply getContent_run. cbn [kv]. apply lookup_insert_eq.
Qed.

Lemma adminUpload_unknown_type_witness :
  exists fileRecord,
    fst (adminUpload (sampleForm examPdf "syllabus" None) sampleClock false oneUpload)
    = Json 200 (BUploaded "File uploaded successfully" fileRecord)
    /\ bucket (snd (adminUpload (sampleForm examPdf "syllabus" None) sampleClock false
                      oneUpload)) !! path fileRecord = Some examPdf
    /\ getContent "CSE" "3" "Data Structures"
         (snd (adminUpload (sampleForm examPdf "syllabus" None) sampleClock false oneUpload))
       = (Json 200
            (BValue (default (VContent emptyContent)
                       (kv oneUpload !! contentKey "CSE" "3" "Data Structures"))),
          snd (adminUpload (sampleForm examPdf "syllabus" None) sampleClock false oneUpload)).
Proof.
  apply (adminUpload_unknown_type examPdf "CSE" "3" "Data Structures" "syllabus" None
           sampleClock oneUpload ["Data Structures"]);
    try discriminate; vm_compute; reflexivity.
Defined.

(** An upload that is answered 200 has registered its subject: the
    subject list of its department and semester, read afterwards, has the
    subject in it. *)
Theorem adminUpload_registers_subject (form : UploadForm) (clock : Clock) (uploadFails : bool)
    (w : World) :
  status (fst (adminUpload form clock uploadFails w)) = 200 ->
  let w' := snd (adminUpload form clock uploadFails w) in
  exists department semester subject l',
    form_department form = Some department
    /\ form_semester form = Some semester
    /\ form_subject form = Some subject
    /\ getSubjects department semester w' = (Json 200 (BValue (VSubjects l')), w')
    /\ subject ∈ l'.
Proof.
  destruct (adminUpload form clock uploadFails w) as [r w'] eqn:E. cbn [fst snd].
  intros Hst.
  destruct (adminUpload_200 _ _ _ _ _ _ E Hst)
    as (file & d & s & sub & ct & Hf & Hd & Hs & Hsub & Hct & -> & _).
  exists d, s, sub.
  destruct (subjectsAt w d s) as [l|] eqn:Hl.
  - pose proof (adminUpload_run form clock w file d s sub ct Hf Hd Hs Hsub Hct l Hl) as Hrun.
    cbv zeta in Hrun. rewrite E in Hrun.
    destruct (pushRecord ct _ _ _) as [updated|e];
      [|injection Hrun as -> _; discriminate Hst].
    injection Hrun as _ ->.
    apply truthy_inv in Hd as [Hd _], Hs as [Hs _], Hsub as [Hsub _].
    exists (if bool_decide (sub ∈ l) then l else l ++ [sub]).
    split_and!; try done.
    + apply getSubjects_run. unfold subjectsAt. cbn [kv].
      rewrite lookup_insert_ne by (intros Heq; symmetry in Heq;
                                   by apply subjectsKey_contentKey_ne in Heq).
      case_bool_decide; [exact Hl | by rewrite lookup_insert_eq].
    + case_bool_decide; [done | apply elem_of_app; right; left].
  - rewrite (adminUpload_no_array form clock w file d s sub ct Hf Hd Hs Hsub Hct Hl) in E.
    injection E as <- _. discriminate Hst.
Qed.

Lemma adminUpload_registers_subject_witness :
  exists department semester subject l',
    Some "CSE" = Some department
    /\ Some "3" = Some semester
    /\ Some "Data Structures" = Some subject
    /\ getSubjects department semester
         (snd (adminUpload (sampleForm examPdf "notes" (Some "2")) sampleClock false emptyWorld))
       = (Json 200 (BValue (VSubjects l')),
          snd (adminUpload (sampleForm examPdf "notes" (Some "2")) sampleClock false emptyWorld))
    /\ subject ∈ l'.
Proof.
  apply (adminUpload_registers_subject (sampleForm examPdf "notes" (Some "2")) sampleClock false
           emptyWorld).
  vm_compute. reflexivity.
Defined.

Lemma adminUpload_invalid (form : UploadForm) (clock : Clock) (uploadFails : bool) (w : World) :
  form_file form = None
  \/ truthy (form_department form) = None
  \/ truthy (form_semester form) = None
  \/ truthy (form_subject form) = None
  \/ truthy (form_contentType form) = None ->
  adminUpload form clock uploadFails w = (Json 400 (BError "Missing required fields"), w).
Proof.
  intros H. unfold adminUpload, try_catch.
  destruct (form_file form), (truthy (form_department form)), (truthy (form_semester form)),
    (truthy (form_subject form)), (truthy (form_contentType form));
    try reflexivity; destruct H as [H | [H | [H | [H | H]]]]; discriminate H.
Qed.

(** An upload writes two keys of the Catalog Store at most, the subject
    list of its department and semester and the catalog of its subject:
    every other key, so every other catalog and subject list, is bound
    after the call as it was before, whatever the form and the answer. *)
Theorem adminUpload_frame (form : UploadForm) (clock : Clock) (uploadFails : bool) (w : World)
    (k : string) :
  (forall d s sub,
     form_department form = Some d -> form_semester form = Some s ->
     form_subject form = Some sub ->
     k ≠ subjectsKey d s /\ k ≠ contentKey d s sub) ->
  kv (snd (adminUpload form clock uploadFails w)) !! k = kv w !! k.
Proof.
  intros Hk.
  destruct (form_file form) as [file|] eqn:Hf;
    [|by rewrite adminUpload_invalid by auto].
  destruct (truthy (form_department form)) as [d|] eqn:Hd;
    [|by rewrite adminUpload_invalid by auto].
  destruct (truthy (form_semester form)) as [s|] eqn:Hs;
    [|by rewrite adminUpload_invalid by auto].
  destruct (truthy (form_subject form)) as [sub|] eqn:Hsub;
    [|by rewrite adminUpload_invalid by auto].
  destruct (truthy (form_contentType form)) as [ct|] eqn:Hct;
    [|by rewrite adminUpload_invalid by auto 10].
  destruct (Hk d s sub) as [Hk1 Hk2];
    [by apply truthy_inv in Hd as [-> _] | by apply truthy_inv in Hs as [-> _]
    | by apply truthy_inv in Hsub as [-> _] |].
  destruct uploadFails.
  { by rewrite (adminUpload_refused form clock w file d s sub ct). }
  destruct (subjectsAt w d s) as [l|] eqn:Hl.
  - pose proof (adminUpload_run form clock w file d s sub ct Hf Hd Hs Hsub Hct l Hl) as Hrun.
    cbv zeta in Hrun. rewrite Hrun.
    destruct (pushRecord ct _ _ _) as [updated|e]; cbn [snd kv];
      rewrite ?(lookup_insert_ne _ (contentKey d s sub)) by done;
      case_bool_decide; by rewrite ?lookup_insert_ne.
  - by rewrite (adminUpload_no_array form clock w file d s sub ct).
Qed.

Lemma adminUpload_frame_witness :
  kv (snd (adminUpload (sampleForm examPdf "notes" (Some "2")) sampleClock false oneUpload))
    !! contentKey "CSE" "4" "Computer Networks"
  = kv oneUpload !! contentKey "CSE" "4" "Computer Networks".
Proof.
  apply (adminUpload_frame (sampleForm examPdf "notes" (Some "2")) sampleClock false oneUpload
           (contentKey "CSE" "4" "Computer Networks")).
  intros d s sub [= <-] [= <-] [= <-]. split; [|discriminate].
  intros H. symmetry in H. by apply subjectsKey_contentKey_ne in H.
Defined.

(** ** Upload, then delete *)

Lemma find_appended (fileId : string) (papers : list FileRecord) (r : FileRecord) :
  absent fileId papers -> id r = fileId ->
  List.find (sameId fileId) (papers ++ [r]) = Some r
  /\ without fileId (papers ++ [r]) = papers.
Proof.
  intros Habs Hid. split.
  - rewrite find_app_first. apply find_None_absent in Habs. rewrite Habs. simpl.
    apply sameId_true in Hid. by rewrite Hid.
  - rewrite without_app, (without_absent _ _ Habs). unfold without. simpl.
    apply sameId_true in Hid. rewrite Hid. simpl. apply app_nil_r.
Qed.

(** With the lists of [t1] free of the id and a match in [b], the notes
    loop stops at [b]. *)
Lemma searchNotes_hit (fileId : string) (t1 pre t2 : Obj (list FileRecord)) (k : string)
    (b : list FileRecord) (r : FileRecord) :
  NoDup (keys (pre ++ t1 ++ (k, b) :: t2)) ->
  Forall (absent fileId) (map snd t1) ->
  List.find (sameId fileId) b = Some r ->
  searchNotes fileId (keys (t1 ++ (k, b) :: t2)) (pre ++ t1 ++ (k, b) :: t2)
  = Done (Some (r, pre ++ t1 ++ (k, without fileId b) :: t2)).
Proof.
  revert pre. induction t1 as [|[k1 b1] t1 IH]; intros pre Hnd Habs Hfind.
  - assert (Hk : k ∉ keys pre).
    { unfold keys in *. rewrite map_app in Hnd. simpl in Hnd.
      apply NoDup_app in Hnd as (_ & Hdisj & _). intros Hin. apply (Hdisj k Hin). left. }
    simpl. rewrite (prop_fresh k pre t2 b Hk), Hfind. by rewrite assign_fresh.
  - assert (Hk : k1 ∉ keys pre).
    { unfold keys in *. rewrite map_app in Hnd. simpl in Hnd.
      apply NoDup_app in Hnd as (_ & Hdisj & _). intros Hin. apply (Hdisj k1 Hin). left. }
    inversion Habs as [|? ? Hb1 Habs']; subst.
    simpl. rewrite (prop_fresh k1 pre _ b1 Hk).
    apply find_None_absent in Hb1. rewrite Hb1.
    specialize (IH (pre ++ [(k1, b1)])). rewrite <- !app_assoc in IH. simpl in IH.
    by apply IH.
Qed.

(** A record appended by the upload to a list of a catalog that did not
    have its id is what the delete handler finds, and taking it out gives
    the catalog back. *)
Lemma pushRecord_findAndRemove (c : ContentCatalog) (contentType : string)
    (module : option string) (r : FileRecord) :
  namesList c contentType module ->
  wfContent c ->
  absent (id r) (records c) ->
  exists c',
    pushRecord contentType (truthy module) r (VContent c) = Done (VContent c')
    /\ findAndRemove (id r) (VContent c') = Done (Some (r, c)).
Proof.
  intros Hnames Hwf Habs.
  apply absent_concat in Habs. unfold buckets in Habs.
  inversion Habs as [|? ? Hpyp Habs']; subst. inversion Habs' as [|? ? Hia Hnotes]; subst.
  destruct c as [pyp ia ns]. cbn [previousYearPapers iaPapers notes] in *.
  unfold pushRecord.
  destruct Hnames as [-> | [-> | (-> & m & Hm & [b Hb])]].
  - eexists. split; [reflexivity|]. unfold findAndRemove. cbn [previousYearPapers iaPapers notes].
    destruct (find_appended (id r) pyp r Hpyp eq_refl) as [-> ->]. reflexivity.
  - eexists. split; [reflexivity|]. unfold findAndRemove. cbn [previousYearPapers iaPapers notes].
    apply find_None_absent in Hpyp as Hpyp'. rewrite Hpyp'.
    destruct (find_appended (id r) ia r Hia eq_refl) as [-> ->]. reflexivity.
  - change (String.eqb "notes" "previousYearPaper") with false.
    change (String.eqb "notes" "iaPaper") with false.
    change (String.eqb "notes" "notes") with true.
    cbn [notes] in Hb. cbn iota. rewrite Hm. cbn [notes]. rewrite Hb.
    eexists. split; [reflexivity|]. unfold findAndRemove. cbn [previousYearPapers iaPapers notes].
    apply find_None_absent in Hpyp as Hpyp'. apply find_None_absent in Hia as Hia'.
    rewrite Hpyp', Hia'.
    destruct (prop_Some_split _ _ _ Hb) as (t1 & t2 & -> & Hk).
    rewrite assign_fresh by exact Hk.
    assert (Hb' : absent (id r) b).
    { rewrite Forall_forall in Hnotes. apply Hnotes.
      rewrite map_app. apply elem_of_app. right. left. }
    destruct (find_appended (id r) b r Hb' eq_refl) as [Hfind Hwithout].
    assert (Hnd : NoDup (keys ([] ++ t1 ++ ("module" +:+ m, b ++ [r]) :: t2))).
    { unfold wfContent in Hwf. cbn [notes] in Hwf. unfold keys in *.
      simpl. rewrite map_app in *. exact Hwf. }
    assert (Ht1 : Forall (absent (id r)) (map snd t1)).
    { rewrite map_app in Hnotes. by apply Forall_app in Hnotes as [? _]. }
    pose proof (searchNotes_hit (id r) t1 [] t2 _ _ r Hnd Ht1 Hfind) as Hhit.
    cbn [app] in Hhit. rewrite Hhit, Hwithout. reflexivity.
Qed.

(** Upload, then delete by the id of the record returned.  When the
    content type names a list of the catalog and no record of the catalog
    has the id that the clock gives, the delete is answered 200, the
    catalog read afterwards is the catalog from before the upload, and the
    Blob Store is the one from before the upload without the path of the
    record. *)
Theorem adminUpload_then_adminDelete (file : File.t)
    (department semester subject contentType : string) (module : option string)
    (clock : Clock) (w : World) (l : list string) (c : ContentCatalog) :
  department ≠ "" -> semester ≠ "" -> subject ≠ "" ->
  namesList c contentType module ->
  wfContent c ->
  subjectsAt w department semester = Some l ->
  default (VContent emptyContent) (kv w !! contentKey department semester subject) = VContent c ->
  absent (numToString (nowId clock)) (records c) ->
  let form :=
    mkForm (Some file) (Some department) (Some semester) (Some subject) (Some contentType)
      module in
  let w1 := snd (adminUpload form clock false w) in
  let w2 := snd (adminDelete department semester subject (numToString (nowId clock)) false w1) in
  exists fileRecord,
    fst (adminUpload form clock false w)
    = Json 200 (BUploaded "File uploaded successfully" fileRecord)
    /\ fst (adminDelete department semester subject (id fileRecord) false w1)
       = Json 200 (BMessage "File deleted successfully")
    /\ getContent department semester subject w2 = (Json 200 (BValue (VContent c)), w2)
    /\ bucket w2 = delete (path fileRecord) (bucket w).
Proof.
  intros Hd Hs Hsub Hnames Hwf Hl Hc Habs form w1 w2.
  assert (Hne : contentType ≠ "")
    by (destruct Hnames as [-> | [-> | [-> _]]]; discriminate).
  pose proof (adminUpload_run form clock w file department semester subject contentType
                eq_refl (truthy_Some _ Hd) (truthy_Some _ Hs) (truthy_Some _ Hsub)
                (truthy_Some _ Hne) l Hl) as Hrun.
  cbv zeta in Hrun. rewrite Hc in Hrun.
  set (r := mkFileRecord (numToString (nowId clock)) _ _ _) in Hrun.
  destruct (pushRecord_findAndRemove c contentType module r Hnames Hwf Habs)
    as (c' & Hpush & Hfind).
  cbn [form_module form] in Hrun. rewrite Hpush in Hrun.
  assert (Hkv1 : kv w1 !! contentKey department semester subject = Some (VContent c')).
  { unfold w1. rewrite Hrun. cbn [snd kv]. apply lookup_insert_eq. }
  pose proof (adminDelete_found department semester subject (id r) false w1 _ r c Hkv1 Hfind)
    as Hdel.
  exists r. unfold w2. change (numToString (nowId clock)) with (id r). rewrite Hdel.
  split_and!.
  - by rewrite Hrun.
  - reflexivity.
  - apply getContent_run. cbn [snd kv]. apply lookup_insert_eq.
  - cbn [snd bucket]. unfold w1. rewrite Hrun. cbn [snd bucket path r].
    apply delete_insert_eq.
Qed.

Lemma adminUpload_then_adminDelete_witness :
  let form := sampleForm (File.mk "notes.pdf" [x25; x50]) "notes" (Some "2") in
  let clock := mkClock 2000 2001 "2024-01-02T00:00:00.000Z" in
  let w1 := snd (adminUpload form clock false oneUpload) in
  let w2 := snd (adminDelete "CSE" "3" "Data Structures" (numToString 2001) false w1) in
  exists fileRecord,
    fst (adminUpload form clock false oneUpload)
    = Json 200 (BUploaded "File uploaded successfully" fileRecord)
    /\ fst (adminDelete "CSE" "3" "Data Structures" (id fileRecord) false w1)
       = Json 200 (BMessage "File deleted successfully")
    /\ getContent "CSE" "3" "Data Structures" w2 = (Json 200 (BValue (VContent oneCatalog)), w2)
    /\ bucket w2 = delete (path fileRecord) (bucket oneUpload).
Proof.
  apply (adminUpload_then_adminDelete (File.mk "notes.pdf" [x25; x50]) "CSE" "3"
           "Data Structures" "notes" (Some "2") (mkClock 2000 2001 "2024-01-02T00:00:00.000Z")
           oneUpload ["Data Structures"] oneCatalog); try discriminate.
  - right. right. split; [reflexivity|]. exists "2". split; [reflexivity|]. by eexists.
  - unfold wfContent. refine (bool_decide_unpack _ _). vm_compute. exact I.
  - vm_compute. reflexivity.
  - vm_compute. reflexivity.
  - repeat constructor. vm_compute. discriminate.
Defined.

(** ** Deletes *)

Lemma findAndRemove_absent (fileId : string) (c : ContentCatalog) :
  Forall (absent fileId) (buckets c) -> findAndRemove fileId (VContent c) = Done None.
Proof.
  unfold buckets. intros Habs.
  inversion Habs as [|? ? H1 Habs']; subst. inversion Habs' as [|? ? H2 H3]; subst.
  apply find_None_absent in H1, H2.
  unfold findAndRemove. rewrite H1, H2.
  by rewrite (searchNotes_absent fileId (notes c) (keys (notes c)) H3).
Qed.

Lemma filter_none_absent (fileId : string) (papers : list FileRecord) :
  length (List.filter (sameId fileId) papers) = 0 -> absent fileId papers.
Proof.
  unfold absent. induction papers as [|p papers IH]; simpl; [constructor|].
  destruct (sameId fileId p) eqn:E; simpl; [discriminate|].
  intros H. constructor; [by apply sameId_false | by apply IH].
Qed.

Lemma absent_filter_nil (fileId : string) (papers : list FileRecord) :
  absent fileId papers -> List.filter (sameId fileId) papers = [].
Proof.
  unfold absent. induction 1 as [|p papers Hp _ IH]; simpl; [reflexivity|].
  apply sameId_false in Hp. by rewrite Hp.
Qed.

Lemma filter_concat_length (fileId : string) (bs : list (list FileRecord)) :
  length (List.filter (sameId fileId) (concat bs)) = 0 -> Forall (absent fileId) bs.
Proof.
  induction bs as [|b bs IH]; simpl; [constructor|].
  rewrite List.filter_app, length_app. intros H.
  constructor; [apply filter_none_absent | apply IH]; lia.
Qed.

Lemma absent_without (fileId : string) (papers : list FileRecord) :
  absent fileId (without fileId papers).
Proof.
  unfold absent, without. apply Forall_forall. intros x Hx.
  apply list_elem_of_In, List.filter_In in Hx as [_ Hx].
  apply sameId_false. by destruct (sameId fileId x).
Qed.

(** The delete handler writes the catalog key of its subject and no
    other: every other key is bound after the call as before, so that no
    other catalog changes and no subject is taken off a subject list, even
    when its last file goes.  The Blob Store loses one path at most. *)
Theorem adminDelete_frame (department semester subject fileId : string) (removeFails : bool)
    (w : World) (k : string) :
  k ≠ contentKey department semester subject ->
  let w' := snd (adminDelete department semester subject fileId removeFails w) in
  kv w' !! k = kv w !! k
  /\ (bucket w' = bucket w \/ exists p, bucket w' = delete p (bucket w)).
Proof.
  intros Hk w'. unfold w', adminDelete, try_catch, bind, kv_get, lift.
  destruct (kv w !! contentKey department semester subject) as [content|]; [|by split; [|left]].
  destruct (findAndRemove fileId content) as [[[r c']|]|e]; [|by split; [|left]..].
  unfold storage_remove, console_error, kv_set, ret.
  destruct removeFails; cbn [snd kv bucket]; (split; [by apply lookup_insert_ne|]).
  - by left.
  - right. by eexists.
Qed.

Lemma adminDelete_frame_witness :
  let w' := snd (adminDelete "CSE" "3" "Data Structures" "1001" false oneUpload) in
  kv w' !! subjectsKey "CSE" "3" = kv oneUpload !! subjectsKey "CSE" "3"
  /\ (bucket w' = bucket oneUpload \/ exists p, bucket w' = delete p (bucket oneUpload)).
Proof.
  apply (adminDelete_frame "CSE" "3" "Data Structures" "1001" false oneUpload
           (subjectsKey "CSE" "3")).
  apply subjectsKey_contentKey_ne.
Defined.

(** With the id on one record of the catalog only, the delete takes out
    exactly that record, all others keeping their order, and a second
    delete by the same id is answered 404, File not found, and changes
    nothing. *)
Theorem adminDelete_twice (department semester subject fileId : string)
    (removeFails removeFails' : bool) (w : World) (c : ContentCatalog) :
  kv w !! contentKey department semester subject = Some (VContent c) ->
  wfContent c ->
  length (List.filter (sameId fileId) (records c)) = 1 ->
  let w1 := snd (adminDelete department semester subject fileId removeFails w) in
  exists r c' pre post,
    fst (adminDelete department semester subject fileId removeFails w)
    = Json 200 (BMessage "File deleted successfully")
    /\ kv w1 !! contentKey department semester subject = Some (VContent c')
    /\ records c = pre ++ r :: post
    /\ id r = fileId
    /\ records c' = pre ++ post
    /\ adminDelete department semester subject fileId removeFails' w1
       = (Json 404 (BError "File not found"), w1).
Proof.
  intros Hkv Hwf Hone w1. unfold records in Hone.
  destruct (findAndRemove_spec fileId c Hwf)
    as [[_ Habs] | (r & c' & bs1 & b & bs2 & Hfind & Hc & Hbs1 & Hb & Hc' & _)].
  { apply absent_concat in Habs.
    rewrite (absent_filter_nil _ _ Habs) in Hone. discriminate Hone. }
  rewrite Hc, concat_app in Hone. simpl in Hone.
  rewrite !List.filter_app, !length_app in Hone.
  destruct (find_Some_first _ _ _ Hb) as (pre & post & Hsplit & Hpre & Hr).
  assert (Hpos : 1 <= length (List.filter (sameId fileId) b)).
  { rewrite Hsplit, List.filter_app, length_app. simpl.
    apply sameId_true in Hr. rewrite Hr. simpl. lia. }
  assert (Hb1 : length (List.filter (sameId fileId) b) = 1) by lia.
  assert (Hbs2 : Forall (absent fileId) bs2) by (apply filter_concat_length; lia).
  destruct (without_single _ _ _ Hb Hb1) as (pre' & post' & Hsplit' & Hwithout).
  pose proof (adminDelete_found _ _ _ _ removeFails _ _ _ _ Hkv Hfind) as Hdel.
  assert (Hkv1 : kv w1 !! contentKey department semester subject = Some (VContent c')).
  { unfold w1. rewrite Hdel. cbn [snd kv]. apply lookup_insert_eq. }
  exists r, c', (concat bs1 ++ pre'), (post' ++ concat bs2). split_and!.
  - by rewrite Hdel.
  - exact Hkv1.
  - unfold records. rewrite Hc, concat_app. simpl. rewrite Hsplit'.
    by rewrite <- !app_assoc.
  - exact Hr.
  - unfold records. rewrite Hc', concat_app. simpl. rewrite Hwithout.
    by rewrite <- !app_assoc.
  - apply (adminDelete_not_found _ _ _ _ _ _ _ Hkv1).
    apply findAndRemove_absent. rewrite Hc'.
    apply Forall_app. split; [exact Hbs1|]. constructor; [apply absent_without | exact Hbs2].
Qed.

Lemma adminDelete_twice_witness :
  let w1 := snd (adminDelete "CSE" "3" "Data Structures" "1001" false oneUpload) in
  exists r c' pre post,
    fst (adminDelete "CSE" "3" "Data Structures" "1001" false oneUpload)
    = Json 200 (BMessage "File deleted successfully")
    /\ kv w1 !! contentKey "CSE" "3" "Data Structures" = Some (VContent c')
    /\ records oneCatalog = pre ++ r :: post
    /\ id r = "1001"
    /\ records c' = pre ++ post
    /\ adminDelete "CSE" "3" "Data Structures" "1001" true w1
       = (Json 404 (BError "File not found"), w1).
Proof.
  apply (adminDelete_twice "CSE" "3" "Data Structures" "1001" false true oneUpload oneCatalog).
  - vm_compute. reflexivity.
  - unfold wfContent. refine (bool_decide_unpack _ _). vm_compute. exact I.
  - reflexivity.
Defined.

(** ** The delete route that scans every catalog *)

Lemma prop_is_Some {V} (key : string) (o : Obj V) : key ∈ keys o -> is_Some (prop key o).
Proof.
  intros Hin. destruct (prop key o) eqn:E; [by eexists|].
  by apply prop_None in E.
Qed.

(** On the keys of the notes object the two notes loops agree: the guard
    of the scanning route never has to step in. *)
Lemma searchNotes_compat (fileId : string) (notes : Obj (list FileRecord))
    (modules : list string) :
  (forall k, k ∈ modules -> k ∈ keys notes) ->
  searchNotes fileId modules notes = Done (searchNotesCompat fileId modules notes).
Proof.
  induction modules as [|k modules IH]; intros Hsub; simpl; [reflexivity|].
  destruct (prop_is_Some k notes) as [b Hb]; [apply Hsub; left|].
  rewrite Hb. simpl. destruct (List.find (sameId fileId) b); [reflexivity|].
  apply IH. intros k' Hk'. apply Hsub. by right.
Qed.

Lemma findAndRemove_compatFind (fileId : string) (c : ContentCatalog) :
  findAndRemove fileId (VContent c) = Done (compatFind fileId (VContent c)).
Proof.
  unfold findAndRemove, compatFind.
  destruct (List.find (sameId fileId) (previousYearPapers c)); [reflexivity|].
  destruct (List.find (sameId fileId) (iaPapers c)); [reflexivity|].
  rewrite searchNotes_compat by done.
  by destruct (searchNotesCompat fileId (keys (notes c)) (notes c)) as [[note notes']|].
Qed.

Lemma compatFind_absent (fileId : string) (c : ContentCatalog) :
  absent fileId (records c) -> compatFind fileId (VContent c) = None.
Proof.
  intros Habs. apply absent_concat, findAndRemove_absent in Habs.
  rewrite findAndRemove_compatFind in Habs. by injection Habs.
Qed.

(** The scan passes over every item in which nothing is found. *)
Lemma compatDeleteScan_none (fileId : string) (removeFails : bool)
    (items : list (string * Value)) (w : World) :
  (forall key v, (key, v) ∈ items -> compatFind fileId v = None) ->
  compatDeleteScan fileId removeFails items w = (Done (Json 404 (BError "File not found")), w).
Proof.
  induction items as [|[key v] items IH]; intros Hnone; simpl; [reflexivity|].
  rewrite (Hnone key v) by left.
  destruct (String.prefix "content_" key); apply IH; intros key' v' Hin;
    apply (Hnone key' v'); by right.
Qed.

(** The scan stops at the one item in which the id is found. *)
Lemma compatDeleteScan_one (fileId : string) (removeFails : bool)
    (items : list (string * Value)) (w : World) (key0 : string) (v0 : Value)
    (r : FileRecord) (c' : ContentCatalog) :
  (key0, v0) ∈ items ->
  String.prefix "content_" key0 = true ->
  compatFind fileId v0 = Some (r, c') ->
  (forall key v, (key, v) ∈ items -> (key, v) = (key0, v0) \/ compatFind fileId v = None) ->
  compatDeleteScan fileId removeFails items w
  = (Done (Json 200 (BMessage "File deleted successfully")),
     mkWorld (<[key0 := VContent c']> (kv w))
             (if removeFails then bucket w else delete (path r) (bucket w))
             (if removeFails then console w ++ ["Error deleting file from storage:"]
              else console w)).
Proof.
  intros Hin Hprefix Hfind.
  induction items as [|[key v] items IH]; intros Hothers; [by apply elem_of_nil in Hin|].
  simpl. destruct (Hothers key v) as [[= -> ->] | Hnone]; [left | |].
  - rewrite Hprefix, Hfind.
    unfold bind, storage_remove, console_error, kv_set, ret. by destruct removeFails.
  - rewrite Hnone.
    assert (Hin' : (key0, v0) ∈ items).
    { apply elem_of_cons in Hin as [[= -> ->] | Hin]; [congruence | exact Hin]. }
    assert (Hothers' : forall key v, (key, v) ∈ items ->
                         (key, v) = (key0, v0) \/ compatFind fileId v = None).
    { intros key' v' Hin''. apply Hothers. by right. }
    destruct (String.prefix "content_" key); by apply IH.
Qed.

Lemma elem_of_getByPrefix (w : World) (prefix key : string) (v : Value) :
  (key, v) ∈ List.filter (fun item => String.prefix prefix (fst item)) (map_to_list (kv w))
  <-> kv w !! key = Some v /\ String.prefix prefix key = true.
Proof.
  rewrite list_elem_of_In, List.filter_In, <- list_elem_of_In, elem_of_map_to_list. done.
Qed.

Lemma contentKey_prefix (d s sub : string) :
  String.prefix "content_" (contentKey d s sub) = true.
Proof.
  unfold contentKey. generalize (d +:+ "_" +:+ s +:+ "_" +:+ sub). intros rest.
  vm_compute. by destruct rest.
Qed.

(** The scanning delete of an id that no catalog of the store has is
    answered 404 and changes nothing.  The values under content_ keys
    that are no catalogs are passed over. *)
Theorem compatDelete_unknown_id (fileId : string) (removeFails : bool) (w : World) :
  (forall key c,
     kv w !! key = Some (VContent c) -> String.prefix "content_" key = true ->
     absent fileId (records c)) ->
  compatDelete fileId removeFails w = (Json 404 (BError "File not found"), w).
Proof.
  intros Habs. unfold compatDelete, try_catch, bind, kv_getByPrefix.
  rewrite compatDeleteScan_none; [reflexivity|].
  intros key v Hin. apply elem_of_getByPrefix in Hin as [Hkv Hprefix].
  destruct v as [l|c]; [reflexivity|]. apply compatFind_absent. by apply (Habs key).
Qed.

Lemma compatDelete_unknown_id_witness :
  compatDelete "9999" false mixedUploads = (Json 404 (BError "File not found"), mixedUploads).
Proof.
  apply (compatDelete_unknown_id "9999" false mixedUploads).
  intros key c Hkv _.
  assert (Hin : (key, VContent c) ∈ map_to_list (kv mixedUploads))
    by (by apply elem_of_map_to_list).
  vm_compute in Hin.
  repeat (apply elem_of_cons in Hin as [[= -> ->] | Hin]);
    try (by apply elem_of_nil in Hin); repeat constructor; discriminate.
Defined.

(** When no other catalog of the store has a record with the id, the
    scanning delete does what the delete by department, semester and
    subject does on the catalog at that key: the same answer and the same
    world, whether the id is found there or not and whether the storage
    removes the blob or not. *)
Theorem compatDelete_as_adminDelete (department semester subject fileId : string)
    (removeFails : bool) (w : World) (c : ContentCatalog) :
  kv w !! contentKey department semester subject = Some (VContent c) ->
  (forall key c0,
     key ≠ contentKey department semester subject ->
     kv w !! key = Some (VContent c0) -> String.prefix "content_" key = true ->
     absent fileId (records c0)) ->
  compatDelete fileId removeFails w
  = adminDelete department semester subject fileId removeFails w.
Proof.
  intros Hkv Hothers.
  assert (Hother : forall key v,
            (key, v) ∈ List.filter (fun item => String.prefix "content_" (fst item))
                         (map_to_list (kv w)) ->
            (key, v) = (contentKey department semester subject, VContent c)
            \/ compatFind fileId v = None).
  { intros key v Hin. apply elem_of_getByPrefix in Hin as [Hkv' Hprefix].
    destruct (decide (key = contentKey department semester subject)) as [-> | Hne].
    - left. congruence.
    - right. destruct v as [l|c0]; [reflexivity|].
      apply compatFind_absent. by apply (Hothers key). }
  pose proof (findAndRemove_compatFind fileId c) as Hfind.
  unfold compatDelete, try_catch, bind at 1, kv_getByPrefix.
  destruct (compatFind fileId (VContent c)) as [[r c']|] eqn:Hcompat.
  - rewrite (adminDelete_found _ _ _ _ removeFails _ _ _ _ Hkv Hfind).
    rewrite (compatDeleteScan_one fileId removeFails _ w
               (contentKey department semester subject) (VContent c) r c');
      [reflexivity | | apply contentKey_prefix | exact Hcompat | exact Hother].
    apply elem_of_getByPrefix. split; [exact Hkv | apply contentKey_prefix].
  - rewrite (adminDelete_not_found _ _ _ _ removeFails _ _ Hkv Hfind).
    rewrite compatDeleteScan_none; [reflexivity|].
    intros key v Hin. destruct (Hother key v Hin) as [[= -> ->] | Hnone]; done.
Qed.

Lemma compatDelete_as_adminDelete_witness :
  compatDelete "1001" false oneUpload
  = adminDelete "CSE" "3" "Data Structures" "1001" false oneUpload.
Proof.
  apply (compatDelete_as_adminDelete "CSE" "3" "Data Structures" "1001" false oneUpload
           oneCatalog).
  - vm_compute. reflexivity.
  - intros key c0 Hne Hkv _.
    assert (Hin : (key, VContent c0) ∈ map_to_list (kv oneUpload))
      by (by apply elem_of_map_to_list).
    vm_compute in Hin.
    repeat (apply elem_of_cons in Hin as [[= -> ->] | Hin]);
      try (by apply elem_of_nil in Hin); exfalso; apply Hne; reflexivity.
Defined.

(** ** The dashboard and the upload handler *)

Section ValidUploadStatus.

Variables (form : UploadForm) (clock : Clock) (w : World).
Variables (file : File.t) (d s sub ct : string).
Hypothesis Hfile : form_file form = Some file.
Hypothesis Hd : truthy (form_department form) = Some d.
Hypothesis Hs : truthy (form_semester form) = Some s.
Hypothesis Hsub : truthy (form_subject form) = Some sub.
Hypothesis Hct : truthy (form_contentType form) = Some ct.

(** A form that has the five fields is not answered 400. *)
Lemma adminUpload_valid_status (uploadFails : bool) :
  status (fst (adminUpload form clock uploadFails w)) ≠ 400.
Proof.
  destruct uploadFails.
  { by rewrite (adminUpload_refused form clock w file d s sub ct). }
  destruct (subjectsAt w d s) as [l|] eqn:Hl.
  - pose proof (adminUpload_run form clock w file d s sub ct Hfile Hd Hs Hsub Hct l Hl) as Hrun.
    cbv zeta in Hrun. rewrite Hrun. by destruct (pushRecord ct _ _ _).
  - by rewrite (adminUpload_no_array form clock w file d s sub ct).
Qed.

End ValidUploadStatus.

(** What the dashboard sends: the file, its four selections, none of them
    empty, and the module exactly when the content type is notes, then
    not empty. *)
Lemma handleFileUpload_sent (st : Dashboard) (file : option File.t) (form : UploadForm) :
  handleFileUpload st file = SendUpload form ->
  exists f,
    file = Some f
    /\ form = mkForm (Some f) (Some (selectedDepartment st)) (Some (selectedSemester st))
                (Some (selectedSubject st)) (Some (selectedContentType st))
                (if String.eqb (selectedContentType st) "notes" then Some (selectedModule st)
                 else None)
    /\ selectedDepartment st ≠ "" /\ selectedSemester st ≠ ""
    /\ selectedSubject st ≠ "" /\ selectedContentType st ≠ ""
    /\ (selectedContentType st = "notes" -> selectedModule st ≠ "").
Proof.
  unfold handleFileUpload, falsy. destruct file as [f|]; [|discriminate].
  destruct (String.eqb (selectedDepartment st) "") eqn:E1; [discriminate|].
  destruct (String.eqb (selectedSemester st) "") eqn:E2; [discriminate|].
  destruct (String.eqb (selectedSubject st) "") eqn:E3; [discriminate|].
  destruct (String.eqb (selectedContentType st) "") eqn:E4; [discriminate|].
  cbn [orb].
  destruct (String.eqb (selectedContentType st) "notes" && String.eqb (selectedModule st) "")
    eqn:E5; [discriminate|].
  intros [= <-]. exists f. apply String.eqb_neq in E1, E2, E3, E4.
  split_and!; try done.
  intros Hnotes. rewrite Hnotes in E5. cbn in E5. by apply String.eqb_neq in E5.
Qed.

(** Every upload that the dashboard sends passes the validation of the
    handler (it is never answered 400), and when it is answered 200 the
    bytes are in the Blob Store under the path as the specification words
    it for the selections of the dashboard: the module segment is there
    exactly for notes. *)
Theorem dashboard_upload_path (st : Dashboard) (file : option File.t) (form : UploadForm)
    (clock : Clock) (uploadFails : bool) (w : World) :
  handleFileUpload st file = SendUpload form ->
  status (fst (adminUpload form clock uploadFails w)) ≠ 400
  /\ (status (fst (adminUpload form clock uploadFails w)) = 200 ->
      exists f fileRecord,
        file = Some f
        /\ fst (adminUpload form clock uploadFails w)
           = Json 200 (BUploaded "File uploaded successfully" fileRecord)
        /\ path fileRecord
           = specPath (selectedDepartment st) (selectedSemester st) (selectedSubject st)
               (selectedContentType st) (Some (selectedModule st))
               (numToString (nowName clock)) (File.name f)
        /\ bucket (snd (adminUpload form clock uploadFails w)) !! path fileRecord = Some f).
Proof.
  intros Hsent.
  destruct (handleFileUpload_sent _ _ _ Hsent) as (f & -> & -> & Hd & Hs & Hsub & Hct & Hm).
  set (form := mkForm _ _ _ _ _ _).
  split.
  - apply (adminUpload_valid_status form clock w f (selectedDepartment st) (selectedSemester st)
             (selectedSubject st) (selectedContentType st));
      cbn [form form_file form_department form_semester form_subject form_contentType];
      try reflexivity; by apply truthy_Some.
  - destruct (adminUpload form clock uploadFails w) as [r w'] eqn:E. cbn [fst snd].
    intros Hst.
    destruct (adminUpload_200 _ _ _ _ _ _ E Hst)
      as (f' & d & s & sub & ct & Hf' & Hd' & Hs' & Hsub' & Hct' & _ & -> & Hb).
    cbn [form form_file form_department form_semester form_subject form_contentType
         form_module] in *.
    rewrite truthy_Some in Hd', Hs', Hsub', Hct' by assumption.
    injection Hf' as <-. injection Hd' as <-. injection Hs' as <-. injection Hsub' as <-.
    injection Hct' as <-.
    exists f. eexists. split_and!; [reflexivity | reflexivity | | ].
    + cbn [path]. unfold uploadPath, specPath.
      destruct (String.eqb (selectedContentType st) "notes") eqn:En.
      * apply String.eqb_eq in En. by rewrite (truthy_Some _ (Hm En)).
      * reflexivity.
    + rewrite Hb. apply lookup_insert_eq.
Qed.

Lemma dashboard_upload_path_witness :
  let st := mkDashboard "CSE" "3" "Data Structures" "iaPaper" "2" in
  let form := sampleForm examPdf "iaPaper" None in
  status (fst (adminUpload form sampleClock false emptyWorld)) ≠ 400
  /\ (status (fst (adminUpload form sampleClock false emptyWorld)) = 200 ->
      exists f fileRecord,
        Some examPdf = Some f
        /\ fst (adminUpload form sampleClock false emptyWorld)
           = Json 200 (BUploaded "File uploaded successfully" fileRecord)
        /\ path fileRecord
           = specPath "CSE" "3" "Data Structures" "iaPaper" (Some "2") (numToString 1000)
               (File.name f)
        /\ bucket (snd (adminUpload form sampleClock false emptyWorld)) !! path fileRecord
           = Some f).
Proof.
  apply (dashboard_upload_path (mkDashboard "CSE" "3" "Data Structures" "iaPaper" "2")
           (Some examPdf) (sampleForm examPdf "iaPaper" None) sampleClock false emptyWorld).
  reflexivity.
Defined.

Lemma assign_elem {V} (key : string) (v : V) (o : Obj V) : v ∈ map snd (assign key v o).
Proof. eapply prop_elem, prop_assign_eq. Qed.

(** An upload from the dashboard with one of the three content types of
    its select is never dropped silently: when it is answered 200, the
    record of the answer is in the catalog read afterwards. *)
Theorem dashboard_upload_listed (st : Dashboard) (file : option File.t) (form : UploadForm)
    (clock : Clock) (uploadFails : bool) (w : World) :
  handleFileUpload st file = SendUpload form ->
  selectedContentType st ∈ ["previousYearPaper"; "iaPaper"; "notes"] ->
  status (fst (adminUpload form clock uploadFails w)) = 200 ->
  let w' := snd (adminUpload form clock uploadFails w) in
  exists fileRecord c',
    fst (adminUpload form clock uploadFails w)
    = Json 200 (BUploaded "File uploaded successfully" fileRecord)
    /\ getContent (selectedDepartment st) (selectedSemester st) (selectedSubject st) w'
       = (Json 200 (BValue (VContent c')), w')
    /\ fileRecord ∈ records c'.
Proof.
  intros Hsent Htype.
  destruct (handleFileUpload_sent _ _ _ Hsent) as (f & -> & -> & Hd & Hs & Hsub & Hct & Hm).
  clear Hsent. destruct st as [d0 s0 sub0 ct0 m0].
  cbn [selectedDepartment selectedSemester selectedSubject selectedContentType selectedModule]
    in *.
  set (form := mkForm _ _ _ _ _ _).
  destruct uploadFails.
  { rewrite (adminUpload_refused form clock w f d0 s0 sub0 ct0);
      cbn [form form_file form_department form_semester form_subject form_contentType];
      try reflexivity; try (by apply truthy_Some). discriminate. }
  destruct (subjectsAt w d0 s0) as [l|] eqn:Hl.
  2:{ rewrite (adminUpload_no_array form clock w f d0 s0 sub0 ct0);
        cbn [form form_file form_department form_semester form_subject form_contentType];
        try reflexivity; try (by apply truthy_Some); [discriminate | exact Hl]. }
  pose proof (adminUpload_run form clock w f d0 s0 sub0 ct0
                eq_refl (truthy_Some _ Hd) (truthy_Some _ Hs) (truthy_Some _ Hsub)
                (truthy_Some _ Hct) l Hl) as Hrun.
  cbv zeta in Hrun. rewrite Hrun. clear Hrun.
  cbn [form form_module].
  set (r := mkFileRecord _ _ _ _).
  assert (Hpush : forall v updated,
            pushRecord ct0
              (truthy (if String.eqb ct0 "notes" then Some m0 else None)) r v
            = Done updated ->
            exists c', updated = VContent c' /\ r ∈ records c').
  { intros v updated. unfold pushRecord, records, buckets.
    apply elem_of_cons in Htype as [-> | Htype]; [|apply elem_of_cons in Htype as [-> | Htype]];
      [| |apply list_elem_of_singleton in Htype as ->].
    - destruct v as [l0|c]; [discriminate|]. intros [= <-]. eexists. split; [reflexivity|].
      cbn [previousYearPapers iaPapers notes concat].
      apply elem_of_app. left. apply elem_of_app. right. left.
    - destruct v as [l0|c]; [discriminate|]. intros [= <-]. eexists. split; [reflexivity|].
      cbn [previousYearPapers iaPapers notes concat].
      apply elem_of_app. right. apply elem_of_app. left. apply elem_of_app. right. left.
    - change (String.eqb "notes" "previousYearPaper") with false.
      change (String.eqb "notes" "iaPaper") with false.
      change (String.eqb "notes" "notes") with true.
      cbn iota. rewrite (truthy_Some _ (Hm eq_refl)).
      destruct v as [l0|c]; [discriminate|].
      destruct (prop _ (notes c)) as [b|]; [|discriminate].
      intros [= <-]. eexists. split; [reflexivity|].
      cbn [previousYearPapers iaPapers notes concat].
      apply elem_of_app. right. apply elem_of_app. right.
      apply list_elem_of_In, List.in_concat. eexists. split.
      + apply list_elem_of_In, assign_elem.
      + apply list_elem_of_In, elem_of_app. right. left. }
  destruct (pushRecord _ _ r _) as [updated|e] eqn:E; cbn [fst snd]; [|discriminate].
  intros _. destruct (Hpush _ _ E) as (c' & -> & Hin).
  exists r, c'. split_and!; [reflexivity | | exact Hin].
  apply getContent_run. cbn [kv]. apply lookup_insert_eq.
Qed.

Lemma dashboard_upload_listed_witness :
  let st := mkDashboard "CSE" "3" "Data Structures" "notes" "2" in
  let form := sampleForm examPdf "notes" (Some "2") in
  let w' := snd (adminUpload form sampleClock false emptyWorld) in
  exists fileRecord c',
    fst (adminUpload form sampleClock false emptyWorld)
    = Json 200 (BUploaded "File uploaded successfully" fileRecord)
    /\ getContent "CSE" "3" "Data Structures" w' = (Json 200 (BValue (VContent c')), w')
    /\ fileRecord ∈ records c'.
Proof.
  apply (dashboard_upload_listed (mkDashboard "CSE" "3" "Data Structures" "notes" "2")
           (Some examPdf) (sampleForm examPdf "notes" (Some "2")) sampleClock false emptyWorld).
  - reflexivity.
  - right. right. left.
  - vm_compute. reflexivity.
Defined.

(** ** An invariant of the store *)

Lemma subjectListsNoDup_insert_content (w : World) (key : string) (c : ContentCatalog)
    (m : gmap string Value) :
  (forall k l, m !! k = Some (VSubjects l) -> NoDup l) ->
  forall k l, <[key := VContent c]> m !! k = Some (VSubjects l) -> NoDup l.
Proof.
  intros Hinv k l. destruct (decide (key = k)) as [-> | Hne].
  - rewrite lookup_insert_eq. discriminate.
  - rewrite lookup_insert_ne by done. apply Hinv.
Qed.

Lemma subjectListsNoDup_registered (w : World) (d s sub : string) (l : list string) :
  subjectListsNoDup w -> subjectsAt w d s = Some l ->
  forall k l',
    (if bool_decide (sub ∈ l) then kv w
     else <[subjectsKey d s := VSubjects (l ++ [sub])]> (kv w)) !! k = Some (VSubjects l') ->
    NoDup l'.
Proof.
  intros Hinv Hl k l'. case_bool_decide as Hin; [apply Hinv|].
  destruct (decide (subjectsKey d s = k)) as [<- | Hne].
  - rewrite lookup_insert_eq. intros [= <-].
    assert (Hnd : NoDup l).
    { unfold subjectsAt in Hl.
      destruct (kv w !! subjectsKey d s) as [[l0|c]|] eqn:E; simplify_eq.
      - by apply (Hinv _ _ E).
      - apply NoDup_nil_2. }
    apply NoDup_app. split_and!; [done | | apply NoDup_singleton].
    intros x Hx Hx'. apply list_elem_of_singleton in Hx' as ->. done.
  - rewrite lookup_insert_ne by done. apply Hinv.
Qed.

Lemma pushRecord_subjects (ct : string) (module : option string) (r : FileRecord)
    (v : Value) (l : list string) :
  pushRecord ct module r v = Done (VSubjects l) -> v = VSubjects l.
Proof.
  unfold pushRecord.
  repeat (case_match; try discriminate); by intros [= ->].
Qed.

Lemma compatDeleteScan_kv (fileId : string) (removeFails : bool)
    (items : list (string * Value)) (w w' : World) (o : Outcome Response) :
  compatDeleteScan fileId removeFails items w = (o, w') ->
  kv w' = kv w \/ exists key c', kv w' = <[key := VContent c']> (kv w).
Proof.
  induction items as [|[key v] items IH]; simpl.
  - intros [= _ <-]. by left.
  - destruct (String.prefix "content_" key); [|exact IH].
    destruct (compatFind fileId v) as [[r c']|]; [|exact IH].
    unfold bind, storage_remove, console_error, kv_set, ret.
    destruct removeFails; intros [= _ <-]; right; by eexists _, _.
Qed.

(** No handler stores a subject list with a duplicate: when every subject
    list of the store is free of duplicates before a call of the subject
    handler, of an upload handler or of a delete handler, so is every
    subject list after it, whatever the request and the answer. *)
Theorem handlers_keep_subjectListsNoDup (w : World) :
  subjectListsNoDup w ->
  (forall department semester subject,
     subjectListsNoDup (snd (addSubject department semester subject w)))
  /\ (forall form clock uploadFails,
        subjectListsNoDup (snd (adminUpload form clock uploadFails w))
        /\ subjectListsNoDup (snd (upload form clock uploadFails w)))
  /\ (forall department semester subject fileId removeFails,
        subjectListsNoDup (snd (adminDelete department semester subject fileId removeFails w)))
  /\ (forall fileId removeFails, subjectListsNoDup (snd (compatDelete fileId removeFails w))).
Proof.
  intros Hinv.
  assert (Hupload : forall form clock uploadFails,
            subjectListsNoDup (snd (adminUpload form clock uploadFails w))).
  { intros form clock uploadFails.
    destruct (form_file form) as [file|] eqn:Hf;
      [|by rewrite adminUpload_invalid by auto].
    destruct (truthy (form_department form)) as [d|] eqn:Hd;
      [|by rewrite adminUpload_invalid by auto].
    destruct (truthy (form_semester form)) as [s|] eqn:Hs;
      [|by rewrite adminUpload_invalid by auto].
    destruct (truthy (form_subject form)) as [sub|] eqn:Hsub;
      [|by rewrite adminUpload_invalid by auto].
    destruct (truthy (form_contentType form)) as [ct|] eqn:Hct;
      [|by rewrite adminUpload_invalid by auto 10].
    destruct uploadFails.
    { by rewrite (adminUpload_refused form clock w file d s sub ct). }
    destruct (subjectsAt w d s) as [l|] eqn:Hl.
    2:{ by rewrite (adminUpload_no_array form clock w file d s sub ct). }
    pose proof (adminUpload_run form clock w file d s sub ct Hf Hd Hs Hsub Hct l Hl) as Hrun.
    cbv zeta in Hrun. rewrite Hrun.
    pose proof (subjectListsNoDup_registered w d s sub l Hinv Hl) as Hreg.
    destruct (pushRecord ct _ _ _) as [updated|e] eqn:Hpush; cbn [snd]; [|exact Hreg].
    intros k l'. cbn [kv]. destruct (decide (contentKey d s sub = k)) as [<- | Hne].
    - rewrite lookup_insert_eq. intros [= ->].
      apply pushRecord_subjects in Hpush.
      destruct (kv w !! contentKey d s sub) as [v|] eqn:E; simpl in Hpush; [|discriminate].
      subst v. by apply (Hinv _ _ E).
    - rewrite lookup_insert_ne by done. apply Hreg. }
  split_and!.
  - intros department semester subject. unfold addSubject, try_catch.
    destruct (truthy department) as [d|]; [|exact Hinv].
    destruct (truthy semester) as [s|]; [|exact Hinv].
    destruct (truthy subject) as [sub|]; [|exact Hinv].
    unfold bind at 1.
    destruct (subjectsAt w d s) as [l|] eqn:Hl.
    + rewrite (registerSubject_run _ _ sub _ _ Hl). cbn [snd ret].
      unfold registered. intros k l'.
      pose proof (subjectListsNoDup_registered w d s sub l Hinv Hl k l') as Hreg.
      by case_bool_decide.
    + unfold registerSubject, bind, kv_get, lift. unfold subjectsAt in Hl.
      destruct (kv w !! subjectsKey d s) as [[l|c]|]; try discriminate Hl. exact Hinv.
  - intros form clock uploadFails. split; apply Hupload.
  - intros department semester subject fileId removeFails.
    unfold adminDelete, try_catch, bind, kv_get, lift.
    destruct (kv w !! contentKey department semester subject) as [content|]; [|exact Hinv].
    destruct (findAndRemove fileId content) as [[[r c']|]|e]; [|exact Hinv..].
    unfold storage_remove, console_error, kv_set, ret.
    destruct removeFails; cbn [snd]; intros k l; cbn [kv];
      by apply (subjectListsNoDup_insert_content w).
  - intros fileId removeFails. unfold compatDelete, try_catch, bind at 1, kv_getByPrefix.
    destruct (compatDeleteScan fileId removeFails _ w) as [[r|e] w'] eqn:E;
      apply compatDeleteScan_kv in E as [Hkv | (key & c' & Hkv)]; cbn [snd];
      intros k l; cbn [kv]; rewrite Hkv; try apply Hinv;
      by apply (subjectListsNoDup_insert_content w).
Qed.

Lemma handlers_keep_subjectListsNoDup_witness :
  subjectListsNoDup
    (snd (addSubject (Some "CSE") (Some "3") (Some "Computer Networks") oneUpload)).
Proof.
  refine (proj1 (handlers_keep_subjectListsNoDup oneUpload _) _ _ _).
  intros k l Hkv.
  assert (Hin : (k, VSubjects l) ∈ map_to_list (kv oneUpload))
    by (by apply elem_of_map_to_list).
  vm_compute in Hin.
  repeat (apply elem_of_cons in Hin as [[= -> ->] | Hin]);
    try (by apply elem_of_nil in Hin); repeat constructor; set_solver.
Defined.
